(** * create_github_repos.py: a shallow embedding and its properties

    The script parses three command-line options, derives a repository
    name, and then drives the [gh] and [git] command-line tools through
    [subprocess].  The embedding below follows src/create_github_repos.py
    function by function.

    - Python [str] values are Rocq [string]s: the bytes of the text in
      UTF-8.  [str.lower] knows the ASCII letters and the Greek sigma, with
      the rule of the final sigma, the one place where lower-casing depends
      on the neighbours of a character; [str.title] knows the ASCII letters;
      every other character counts as caseless.  Properties that rest on the
      case mapping are stated for ASCII text, where this is what Python
      does.
    - Everything outside the process (programs started through [os.system]
      and [subprocess], the file system) is an oracle that answers each call
      from the history of the calls made so far: the program exited and
      wrote text, it exited and wrote bytes that are not text, or the
      operating system refused.
    - Side effects are threaded through a small state-and-exception monad
      that records every call made and every [print]. *)

From Stdlib Require Import String Ascii List ZArith Bool Lia DecimalString.
Import ListNotations.
Local Open Scope list_scope.
Local Open Scope string_scope.

Set Implicit Arguments.

(** ** Python string primitives *)

Module Py.

Definition is_upper (c : ascii) : bool :=
  let n := nat_of_ascii c in (65 <=? n)%nat && (n <=? 90)%nat.

Definition is_lower (c : ascii) : bool :=
  let n := nat_of_ascii c in (97 <=? n)%nat && (n <=? 122)%nat.

(** A cased character is a letter. *)
Definition is_cased (c : ascii) : bool := is_upper c || is_lower c.

Definition lower_char (c : ascii) : ascii :=
  if is_upper c then ascii_of_nat (nat_of_ascii c + 32) else c.

Definition upper_char (c : ascii) : ascii :=
  if is_lower c then ascii_of_nat (nat_of_ascii c - 32) else c.

(** A string of ASCII characters only. *)
Fixpoint is_ascii (s : string) : bool :=
  match s with
  | EmptyString => true
  | String c s' => (nat_of_ascii c <? 128)%nat && is_ascii s'
  end.

(** Lower-casing character by character: what [s.lower()] is on ASCII
    text. *)
Fixpoint lower_ascii (s : string) : string :=
  match s with
  | EmptyString => EmptyString
  | String c s' => String (lower_char c) (lower_ascii s')
  end.

(** The characters of the ASCII range that do not interrupt a word for the
    final-sigma rule: apostrophe, full stop, colon, circumflex and grave
    accent. *)
Definition is_case_ignorable (c : ascii) : bool :=
  let n := nat_of_ascii c in
  (n =? 39)%nat || (n =? 46)%nat || (n =? 58)%nat || (n =? 94)%nat || (n =? 96)%nat.

(** The Greek sigma in UTF-8: the capital is [CE A3], the small sigma is
    [CF 83] and the final small sigma [CF 82]. *)
Definition is_capital_sigma (c d : ascii) : bool :=
  (nat_of_ascii c =? 206)%nat && (nat_of_ascii d =? 163)%nat.

Definition is_small_sigma (c d : ascii) : bool :=
  (nat_of_ascii c =? 207)%nat && ((nat_of_ascii d =? 130)%nat || (nat_of_ascii d =? 131)%nat).

Definition small_sigma (final : bool) : ascii :=
  ascii_of_nat (if final then 130 else 131).

(** After case-ignorable characters, a cased character follows. *)
Fixpoint cased_follows (s : string) : bool :=
  match s with
  | EmptyString => false
  | String c s' =>
      if is_case_ignorable c then cased_follows s'
      else is_cased c
           || match s' with
              | String d _ => is_capital_sigma c d || is_small_sigma c d
              | EmptyString => false
              end
  end.

(** [s.lower()], read from left to right.  Lower-casing is character by
    character but for the capital sigma, which becomes the final sigma when
    a cased character comes before it and none after it, case-ignorable
    characters set aside; [after_cased] says whether a cased character
    comes before.  The letters known are those of ASCII and the sigma. *)
Fixpoint lower_from (after_cased : bool) (s : string) : string :=
  match s with
  | EmptyString => EmptyString
  | String c s' =>
      match s' with
      | String d rest =>
          if is_capital_sigma c d then
            String (ascii_of_nat 207)
                   (String (small_sigma (after_cased && negb (cased_follows rest)))
                           (lower_from true rest))
          else if is_small_sigma c d then
            String c (String d (lower_from true rest))
          else
            String (lower_char c)
                   (lower_from (if is_cased c then true
                                else if is_case_ignorable c then after_cased
                                else false) s')
      | EmptyString => String (lower_char c) EmptyString
      end
  end.

(** [s.lower()] *)
Definition lower (s : string) : string := lower_from false s.

(** [s.title()]: a cased character is upper-cased when the character
    before it is not cased, and lower-cased otherwise. *)
Fixpoint title_from (previous_is_cased : bool) (s : string) : string :=
  match s with
  | EmptyString => EmptyString
  | String c s' =>
      String (if previous_is_cased then lower_char c else upper_char c)
             (title_from (is_cased c) s')
  end.

Definition title (s : string) : string := title_from false s.

(** [s.split(sep)] for a separator of one character.  The result is never
    empty: a string without the separator is returned as its only piece. *)
Fixpoint split (sep : ascii) (s : string) : list string :=
  match s with
  | EmptyString => [EmptyString]
  | String c s' =>
      if Ascii.eqb c sep then EmptyString :: split sep s'
      else match split sep s' with
           | [] => [String c EmptyString]
           | piece :: pieces => String c piece :: pieces
           end
  end.

(** White space of one byte: tab, line feed, vertical tab, form feed,
    carriage return, the four separators 28..31, and space. *)
Definition is_space (c : ascii) : bool :=
  let n := nat_of_ascii c in
  ((9 <=? n)%nat && (n <=? 13)%nat) || ((28 <=? n)%nat && (n <=? 32)%nat).

(** White space of two bytes: U+0085 and U+00A0. *)
Definition is_space2 (c d : ascii) : bool :=
  (nat_of_ascii c =? 194)%nat && ((nat_of_ascii d =? 133)%nat || (nat_of_ascii d =? 160)%nat).

(** White space of three bytes: U+1680, U+2000..U+200A, U+2028, U+2029,
    U+202F, U+205F and U+3000. *)
Definition is_space3 (c d e : ascii) : bool :=
  let c := nat_of_ascii c in
  let d := nat_of_ascii d in
  let e := nat_of_ascii e in
  ((c =? 225)%nat && (d =? 154)%nat && (e =? 128)%nat)
  || ((c =? 226)%nat && (d =? 128)%nat
      && (((128 <=? e)%nat && (e <=? 138)%nat)
          || (e =? 168)%nat || (e =? 169)%nat || (e =? 175)%nat))
  || ((c =? 226)%nat && (d =? 129)%nat && (e =? 159)%nat)
  || ((c =? 227)%nat && (d =? 128)%nat && (e =? 128)%nat).

(** Drops the white space a string starts with.  Read [backwards], the
    bytes of a character come in the opposite order. *)
Fixpoint strip_start (backwards : bool) (s : string) : string :=
  match s with
  | EmptyString => EmptyString
  | String c s1 =>
      if is_space c then strip_start backwards s1
      else
        match s1 with
        | String d s2 =>
            if (if backwards then is_space2 d c else is_space2 c d)
            then strip_start backwards s2
            else
              match s2 with
              | String e s3 =>
                  if (if backwards then is_space3 e d c else is_space3 c d e)
                  then strip_start backwards s3
                  else s
              | EmptyString => s
              end
        | EmptyString => s
        end
  end.

Fixpoint reverse_onto (s acc : string) : string :=
  match s with
  | EmptyString => acc
  | String c s' => reverse_onto s' (String c acc)
  end.

Definition reverse (s : string) : string := reverse_onto s EmptyString.

Definition lstrip (s : string) : string := strip_start false s.

Definition rstrip (s : string) : string := reverse (strip_start true (reverse s)).

(** [s.strip()] *)
Definition strip (s : string) : string := rstrip (lstrip s).

(** [c in s] for a character [c]. *)
Fixpoint contains (c : ascii) (s : string) : bool :=
  match s with
  | EmptyString => false
  | String d s' => Ascii.eqb d c || contains c s'
  end.

End Py.

(** ** JSON values and [json.dumps] *)

Module Json.

(** The Python values [json.dumps] is given here: [None], booleans,
    integers, strings, and dictionaries with string keys.  A dictionary
    keeps its keys in insertion order, and [json.dumps] writes them in that
    order, so it is an association list. *)
#[warnings="-register-all"]
Inductive value : Type :=
| Null
| Bool (b : bool)
| Int (n : Z)
| Str (s : string)
| Dict (items : list (string * value)).

(** [d[key]] *)
Fixpoint get (key : string) (items : list (string * value)) : option value :=
  match items with
  | [] => None
  | (k, v) :: rest => if String.eqb k key then Some v else get key rest
  end.

Definition field (key : string) (v : value) : option value :=
  match v with
  | Dict items => get key items
  | _ => None
  end.

Definition hex_digit (n : nat) : ascii :=
  if (n <? 10)%nat then ascii_of_nat (48 + n) else ascii_of_nat (87 + n).

Definition backslash : string := String (ascii_of_nat 92) EmptyString.
Definition dquote : string := String (ascii_of_nat 34) EmptyString.

(** The escape of one character with [ensure_ascii] on, the default. *)
Definition escape_char (c : ascii) : string :=
  let n := nat_of_ascii c in
  if (n =? 34)%nat then backslash ++ dquote
  else if (n =? 92)%nat then backslash ++ backslash
  else if (n =? 10)%nat then backslash ++ "n"
  else if (n =? 13)%nat then backslash ++ "r"
  else if (n =? 9)%nat then backslash ++ "t"
  else if (n =? 8)%nat then backslash ++ "b"
  else if (n =? 12)%nat then backslash ++ "f"
  else if ((32 <=? n)%nat && (n <=? 126)%nat) then String c EmptyString
  else backslash ++ "u00"
       ++ String (hex_digit (n / 16)) (String (hex_digit (n mod 16)) EmptyString).

Fixpoint escape (s : string) : string :=
  match s with
  | EmptyString => EmptyString
  | String c s' => escape_char c ++ escape s'
  end.

Definition quote (s : string) : string := dquote ++ escape s ++ dquote.

(** [json.dumps(v)] with the default separators [", "] and [": "]. *)
Fixpoint dumps (v : value) : string :=
  match v with
  | Null => "null"
  | Bool true => "true"
  | Bool false => "false"
  | Int n => NilZero.string_of_int (Z.to_int n)
  | Str s => quote s
  | Dict items =>
      let fix members (l : list (string * value)) : string :=
        match l with
        | [] => ""
        | [(k, x)] => quote k ++ ": " ++ dumps x
        | (k, x) :: rest => quote k ++ ": " ++ dumps x ++ ", " ++ members rest
        end in
      "{" ++ members items ++ "}"
  end.

End Json.

(** ** The process and the world around it *)

(** The exceptions the script can meet.  [SystemExit] is the only one of
    them that is not an [Exception], so [except Exception] lets it pass. *)
Inductive exn : Type :=
| IndexError (message : string)
| CalledProcessError (returncode : Z) (cmd : list string)
                     (output stderr : option string)
| OSError (message : string)
| UnicodeDecodeError
| UnicodeEncodeError
| SystemExit (code : Z).

Definition is_Exception (e : exn) : bool :=
  match e with
  | SystemExit _ => false
  | _ => true
  end.

(** What the script asks of the operating system. *)
Inductive Call : Type :=
| OsSystem (command : string)
| SubprocessRun (cmd : list string) (cwd : option string) (input : option string)
| CheckOutput (cmd : list string) (cwd : option string)
| AppendFile (path : string) (text : string).

(** The answer to a call.  [Exited]: the program ran and exited, and what
    it wrote is text (for [AppendFile]: the text was written).  [Garbled]:
    the program ran and exited, but what it wrote is not text in the
    encoding of the process, so that [text=True] fails to decode it (for
    [AppendFile]: the text cannot be encoded).  [Refused]: the operating
    system refused (the executable or the directory is missing, permission
    is denied, ...). *)
Inductive Outcome : Type :=
| Exited (returncode : Z) (stdout stderr : string)
| Garbled (returncode : Z)
| Refused (message : string).

Definition Event : Type := Call * Outcome.

(** One [print] call: the pieces of its text and its [end]. *)
Inductive Fragment : Type :=
| Text (s : string)
| TextOrNone (s : option string)
| ListRepr (l : list string)
| ExnStr (e : exn)
| HelpText.

Record Line : Type := { fragments : list Fragment; ending : string }.

(** The namespace [parser.parse_args()] returns: an option that was not
    given is [None]. *)
Record Namespace : Type := {
  arg_folder_name : option string;
  arg_repo_desc : option string;
  arg_repo_visibility : option string
}.

Record Env : Type := {
  os_name : string;
  sys_argv : list string;
  parsed_args : Namespace;
  oracle : list Event -> Call -> Outcome
}.

Record State : Type := {
  trace : list Event;
  stdout : list Line
}.

Definition initial : State := {| trace := []; stdout := [] |}.

Inductive Result (A : Type) : Type :=
| Ok (a : A)
| Raise (e : exn).

Arguments Ok {A} a.
Arguments Raise {A} e.

Definition M (A : Type) : Type := Env -> State -> Result A * State.

Definition ret {A : Type} (a : A) : M A := fun _ st => (Ok a, st).

Definition bind {A B : Type} (m : M A) (k : A -> M B) : M B :=
  fun env st =>
    match m env st with
    | (Ok a, st') => k a env st'
    | (Raise e, st') => (Raise e, st')
    end.

Definition raise {A : Type} (e : exn) : M A := fun _ st => (Raise e, st).

Definition ask : M Env := fun env st => (Ok env, st).

(** [try: body  except ...:]; the handler answers [None] for an exception
    that no [except] clause matches. *)
Definition try_except {A : Type} (body : M A) (handler : exn -> option (M A)) : M A :=
  fun env st =>
    match body env st with
    | (Ok a, st') => (Ok a, st')
    | (Raise e, st') =>
        match handler e with
        | Some h => h env st'
        | None => (Raise e, st')
        end
    end.

Declare Scope py_scope.
Delimit Scope py_scope with py.
Notation "x <- m ;; k" := (bind m (fun x => k))
  (at level 61, m at next level, right associativity) : py_scope.
Notation "m ;; k" := (bind m (fun _ => k))
  (at level 61, right associativity) : py_scope.
Local Open Scope py_scope.

Definition nl : string := String (ascii_of_nat 10) EmptyString.

Definition print (fragments : list Fragment) (ending : string) : M unit :=
  fun _ st =>
    (Ok tt, {| trace := trace st;
               stdout := (stdout st ++ [{| fragments := fragments; ending := ending |}])%list |}).

Definition call (c : Call) : M Outcome :=
  fun env st =>
    let o := oracle env (trace st) c in
    (Ok o, {| trace := (trace st ++ [(c, o)])%list; stdout := stdout st |}).

(** [os.system(command)]; the script ignores the status it returns. *)
Definition os_system (command : string) : M unit :=
  _ <- call (OsSystem command) ;; ret tt.

(** [subprocess.run(cmd, check=True, capture_output=True, text=True,
    cwd=cwd, input=input)].  The output is decoded before the exit status
    is looked at. *)
Definition subprocess_run (cmd : list string) (cwd input : option string)
  : M (string * string) :=
  o <- call (SubprocessRun cmd cwd input) ;;
  match o with
  | Exited code out err =>
      if (code =? 0)%Z then ret (out, err)
      else raise (CalledProcessError code cmd (Some out) (Some err))
  | Garbled _ => raise UnicodeDecodeError
  | Refused message => raise (OSError message)
  end.

(** [subprocess.check_output(cmd, text=True, cwd=cwd)] *)
Definition check_output (cmd : list string) (cwd : option string) : M string :=
  o <- call (CheckOutput cmd cwd) ;;
  match o with
  | Exited code out _ =>
      if (code =? 0)%Z then ret out
      else raise (CalledProcessError code cmd (Some out) None)
  | Garbled _ => raise UnicodeDecodeError
  | Refused message => raise (OSError message)
  end.

(** [with open(path, "a", encoding="utf-8") as f: f.write(text)] *)
Definition append_file (path text : string) : M unit :=
  o <- call (AppendFile path text) ;;
  match o with
  | Exited _ _ _ => ret tt
  | Garbled _ => raise UnicodeEncodeError
  | Refused message => raise (OSError message)
  end.

(** [s[i]] on a string *)
Definition str_item (s : string) (i : nat) : M string :=
  match String.get i s with
  | Some c => ret (String c EmptyString)
  | None => raise (IndexError "string index out of range")
  end.

(** [s[i:]] *)
Definition str_from (s : string) (i : nat) : string :=
  String.substring i (String.length s - i) s.

(** [l[i]] on a list *)
Definition list_item (l : list string) (i : nat) : M string :=
  match nth_error l i with
  | Some x => ret x
  | None => raise (IndexError "list index out of range")
  end.

(** What a function of the script hands back: [True], [False], or the
    [None] of a function that ends without [return]. *)
Inductive pyval : Type := PyTrue | PyFalse | PyNone.

Definition truthy (v : pyval) : bool :=
  match v with
  | PyTrue => true
  | _ => false
  end.

(** ** The script *)

Module Script.

(** [cls] *)
Definition cls : M unit :=
  env <- ask ;;
  os_system (if String.eqb (os_name env) "nt" then "cls" else "clear").

Definition PREFIX : string := "python-challenge-".

(** [add_prefix] *)
Definition add_prefix (repo_name : string) : string := PREFIX ++ repo_name.

(** [print_parameters] *)
Definition print_parameters (folder_name repo_name repo_desc repo_visibility : string)
  : M unit :=
  print [Text "Data to be used to configure repos locally and remotely: "] nl ;;
  print [Text ("   Folder name: " ++ folder_name)] nl ;;
  print [Text ("   Repo name: " ++ repo_name)] nl ;;
  print [Text ("   Repo desc: " ++ repo_desc)] nl ;;
  print [Text ("   Repo visibility: " ++ repo_visibility)] (nl ++ nl).

(** [argument_parser], from the namespace [parser.parse_args()] returned.
    Runs in which [parse_args] itself leaves the process (an unknown
    option, [-h]) never reach this code. *)
Definition argument_parser : M (string * string * string * string) :=
  env <- ask ;;
  let args := parsed_args env in
  if (List.length (sys_argv env) =? 1)%nat then
    print [HelpText] "" ;;
    raise (SystemExit 1)
  else
    let folder_name :=
      match arg_folder_name args with
      | Some f => Py.lower f
      | None => ""
      end in
    repo_desc <-
      match arg_repo_desc args with
      | Some d =>
          first <- str_item d 0 ;;
          ret (Py.title first ++ str_from d 1)
      | None => ret ""
      end ;;
    let repo_visibility :=
      match arg_repo_visibility args with
      | Some v => Py.lower v
      | None => Py.lower "Public"
      end in
    segment <- list_item (Py.split "." folder_name) 1 ;;
    let repo_name := add_prefix (Py.lower segment) in
    ret (folder_name, repo_name, repo_desc, repo_visibility).

(** [run_command] *)
Definition run_command (cmd : list string) (pCWD : option string) : M pyval :=
  try_except
    (_ <- subprocess_run cmd pCWD None ;;
     ret PyTrue)
    (fun e =>
       match e with
       | CalledProcessError _ _ out err =>
           Some (print [Text "❌ Failed to run command "; ListRepr cmd] nl ;;
                 print [Text "Exception: "; ExnStr e] nl ;;
                 print [Text "STERR"; Text " "; TextOrNone err] nl ;;
                 print [Text "STOUT"; Text " "; TextOrNone out] nl ;;
                 ret PyFalse)
       | SystemExit _ => None
       | ex =>
           Some (print [Text "❌ Unexpected error while running command ";
                        ListRepr cmd; Text ". Error: "; ExnStr ex] nl ;;
                 ret PyNone)
       end).

(** [is_logged_to_gh] *)
Definition is_logged_to_gh : M pyval :=
  print [Text "▶️  Checking if user is logged to GitHub cli tool..."] (nl ++ nl) ;;
  let command := ["gh"; "auth"; "status"] in
  run_command command None.

(** [create_gh_repo] *)
Definition create_gh_repo (repo_name repo_desc repo_visibility : string) : M pyval :=
  print [Text ("▶️  Creating GitHub Repo for " ++ repo_name
               ++ " with visibility as " ++ repo_visibility
               ++ " and description as '" ++ repo_desc ++ "'")] (nl ++ nl) ;;
  let command :=
    ["gh"; "repo"; "create"; repo_name; "--" ++ repo_visibility;
     "--description"; repo_desc; "--clone"; "--disable-wiki"] in
  r <- run_command command None ;;
  if truthy r then ret PyTrue else ret PyFalse.

(** [configure_basic_repo_settings] *)
Definition configure_basic_repo_settings (repo_name : string) : M pyval :=
  print [Text ("▶️  Configuring basic repo settings for " ++ repo_name)] (nl ++ nl) ;;
  try_except
    (let cmd :=
       ["gh"; "repo"; "edit"; "--enable-projects=false"; "--delete-branch-on-merge"] in
     r <- run_command cmd (Some ("./" ++ repo_name)) ;;
     if truthy r then
       print [Text "✅ Repository updated successfully"] (nl ++ nl) ;;
       ret PyTrue
     else ret PyFalse)
    (fun e =>
       match e with
       | CalledProcessError _ _ out err =>
           Some (print [Text "❌ Failed to update repository settings."] nl ;;
                 print [Text "STDERR:"; Text " "; TextOrNone err] nl ;;
                 print [Text "STOUT"; Text " "; TextOrNone out] nl ;;
                 ret PyNone)
       | SystemExit _ => None
       | ex =>
           Some (print [Text "❌ Unexpected error while updating repository settings:";
                        Text " "; ExnStr ex] nl ;;
                 ret PyNone)
       end).

Definition get_repo_cmd : list string :=
  ["gh"; "repo"; "view"; "--json"; "owner,name"; "-q";
   ".owner.login + " ++ Json.dquote ++ "/" ++ Json.dquote ++ " + .name"].

(** The dictionary [protection_settings] of [set_branch_protection]. *)
Definition protection_settings : Json.value :=
  Json.Dict
    [("required_status_checks", Json.Null);
     ("enforce_admins", Json.Bool false);
     ("required_pull_request_reviews",
       Json.Dict [("required_approving_review_count", Json.Int 1)]);
     ("restrictions", Json.Null);
     ("allow_force_pushes", Json.Bool false);
     ("allow_deletions", Json.Bool false)].

(** [set_branch_protection] *)
Definition set_branch_protection (repo_name : string) : M pyval :=
  print [Text ("▶️  Setting branch protection for " ++ repo_name)] (nl ++ nl) ;;
  try_except
    (out <- check_output get_repo_cmd (Some ("./" ++ repo_name)) ;;
     let repo_full_name := Py.strip out in
     owner <- list_item (Py.split "/" repo_full_name) 0 ;;
     repo <- list_item (Py.split "/" repo_full_name) 1 ;;
     let json_payload := Json.dumps protection_settings in
     let patch_cmd :=
       ["gh"; "api";
        "repos/" ++ owner ++ "/" ++ repo ++ "/branches/main/protection";
        "--method"; "PUT"; "--input"; "-"] in
     result <- subprocess_run patch_cmd (Some ("./" ++ repo_name)) (Some json_payload) ;;
     print [Text "✅ Branch protection updated successfully"] (nl ++ nl) ;;
     print [Text (fst result)] nl ;;
     ret PyNone)
    (fun e =>
       match e with
       | CalledProcessError _ _ out err =>
           Some (print [Text "❌ Failed to update branch protection."] nl ;;
                 print [Text "STDERR:"; Text " "; TextOrNone err] nl ;;
                 print [Text "STOUT"; Text " "; TextOrNone out] nl ;;
                 ret PyNone)
       | SystemExit _ => None
       | ex =>
           Some (print [Text "❌ Unexpected error while updating branch protection:";
                        Text " "; ExnStr ex] nl ;;
                 ret PyNone)
       end).

(** [init_repo] *)
Definition init_repo (repo_name repo_desc : string) : M pyval :=
  let branch_name := "main" in
  let readme_file := "README.md" in
  out <- check_output get_repo_cmd (Some ("./" ++ repo_name)) ;;
  let repo_full_name := Py.strip out in
  let readme_file_path := "./" ++ repo_name ++ "/" ++ readme_file in
  append_file readme_file_path (repo_desc ++ nl) ;;
  print [Text ("✅ " ++ readme_file ++ " has been initialized")] (nl ++ nl) ;;
  r <- run_command ["git"; "add"; readme_file] (Some ("./" ++ repo_name)) ;;
  if truthy r then
    print [Text ("✅ " ++ readme_file ++ " has been added to the repo")] (nl ++ nl) ;;
    r <- run_command ["git"; "commit"; "-m"; "Initial commit"] (Some ("./" ++ repo_name)) ;;
    if truthy r then
      print [Text "✅ Initial commit has been completed"] (nl ++ nl) ;;
      r <- run_command ["git"; "branch"; "-M"; branch_name] (Some ("./" ++ repo_name)) ;;
      if truthy r then
        print [Text ("✅ Branch has been set to " ++ branch_name)] (nl ++ nl) ;;
        r <- run_command ["git"; "push"; "origin"; "main"] (Some ("./" ++ repo_name)) ;;
        if truthy r then
          print [Text "✅ Commit has been pushed to remote"] (nl ++ nl) ;;
          ret PyTrue
        else ret PyFalse
      else ret PyFalse
    else ret PyFalse
  else ret PyFalse.

(** [rename_folder] *)
Definition rename_folder (repo_name folder_name : string) : M pyval :=
  print [Text ("▶️  Renaming folder from " ++ repo_name ++ " to " ++ folder_name)]
        (nl ++ nl) ;;
  let cmd := ["mv"; repo_name; folder_name] in
  r <- run_command cmd None ;;
  if truthy r then ret PyTrue else ret PyFalse.

(** [main] *)
Definition main : M unit :=
  params <- argument_parser ;;
  let '(folder_name, repo_name, repo_desc, repo_visibility) := params in
  print_parameters folder_name repo_name repo_desc repo_visibility ;;
  logged <- is_logged_to_gh ;;
  if truthy logged then
    print [Text "✅ You are logged into GitHub CLI. Continuing..."] (nl ++ nl) ;;
    created <- create_gh_repo repo_name repo_desc repo_visibility ;;
    if truthy created then
      configured <- configure_basic_repo_settings repo_name ;;
      if truthy configured then
        initialized <- init_repo repo_name repo_desc ;;
        if truthy initialized then
          renamed <- rename_folder repo_name folder_name ;;
          if truthy renamed then
            print [Text "✅ Done"] (nl ++ nl)
          else ret tt
        else ret tt
      else ret tt
    else
      print [Text "❌ Something went wrong"] (nl ++ nl)
  else
    print [Text "❌ You are NOT logged into GitHub CLI. Log via gh first and try again"]
          (nl ++ nl).

(** The [if __name__ == "__main__":] block. *)
Definition script : M unit :=
  cls ;;
  main.

(** The exit status of the process: 0 when the script runs to its end, the
    code of [sys.exit], and 1 after an exception nobody caught. *)
Definition exit_status (r : Result unit) : Z :=
  match r with
  | Ok _ => 0
  | Raise (SystemExit code) => code
  | Raise _ => 1
  end.

End Script.

(** ** Reading a run *)

(** The calls of a trace, in the order they were made. *)
Definition commands (tr : list Event) : list Call := map fst tr.

(** An external command: a call made through the [subprocess] module, as
    the [gh], [git] and [mv] commands of the flow are. *)
Definition is_subprocess (c : Call) : bool :=
  match c with
  | SubprocessRun _ _ _ | CheckOutput _ _ => true
  | _ => false
  end.

(** A step went well: the program exited with status 0 and its output was
    read, or the file was written. *)
Definition succeeded (e : Event) : bool :=
  match e with
  | (AppendFile _ _, Exited _ _ _) => true
  | (_, Exited code _ _) => (code =? 0)%Z
  | (_, Garbled _) => false
  | (_, Refused _) => false
  end.

(** Every event that is followed by another one went well. *)
Definition fail_fast (tr : list Event) : Prop :=
  forall before e after,
    tr = (before ++ e :: after)%list -> after <> [] -> succeeded e = true.

Definition fail_fastb (tr : list Event) : bool := forallb succeeded (removelast tr).

(** The steps of the orchestrated flow for given parameters, in order: the
    authentication check, the creation of the remote repository, its
    settings, the five steps of [init_repo] behind its look-up of the
    repository name, and the renaming of the folder. *)
Definition pipeline (folder_name repo_name repo_desc repo_visibility : string)
  : list Call :=
  let cwd := Some ("./" ++ repo_name) in
  [ SubprocessRun ["gh"; "auth"; "status"] None None;
    SubprocessRun ["gh"; "repo"; "create"; repo_name; "--" ++ repo_visibility;
                   "--description"; repo_desc; "--clone"; "--disable-wiki"] None None;
    SubprocessRun ["gh"; "repo"; "edit"; "--enable-projects=false";
                   "--delete-branch-on-merge"] cwd None;
    CheckOutput Script.get_repo_cmd cwd;
    AppendFile ("./" ++ repo_name ++ "/README.md") (repo_desc ++ nl);
    SubprocessRun ["git"; "add"; "README.md"] cwd None;
    SubprocessRun ["git"; "commit"; "-m"; "Initial commit"] cwd None;
    SubprocessRun ["git"; "branch"; "-M"; "main"] cwd None;
    SubprocessRun ["git"; "push"; "origin"; "main"] cwd None;
    SubprocessRun ["mv"; repo_name; folder_name] None None ].

(** What [run_command] hands back for each answer of the operating system. *)
Definition run_command_result (o : Outcome) : pyval :=
  match o with
  | Exited code _ _ => if (code =? 0)%Z then PyTrue else PyFalse
  | Garbled _ => PyNone
  | Refused _ => PyNone
  end.

(** The lines [run_command] prints for each answer. *)
Definition run_command_output (cmd : list string) (o : Outcome) : list Line :=
  match o with
  | Exited code out err =>
      if (code =? 0)%Z then []
      else
        [ {| fragments := [Text "❌ Failed to run command "; ListRepr cmd]; ending := nl |};
          {| fragments := [Text "Exception: ";
                           ExnStr (CalledProcessError code cmd (Some out) (Some err))];
             ending := nl |};
          {| fragments := [Text "STERR"; Text " "; TextOrNone (Some err)]; ending := nl |};
          {| fragments := [Text "STOUT"; Text " "; TextOrNone (Some out)]; ending := nl |} ]
  | Garbled _ =>
      [ {| fragments := [Text "❌ Unexpected error while running command ";
                         ListRepr cmd; Text ". Error: "; ExnStr UnicodeDecodeError];
           ending := nl |} ]
  | Refused message =>
      [ {| fragments := [Text "❌ Unexpected error while running command ";
                         ListRepr cmd; Text ". Error: "; ExnStr (OSError message)];
           ending := nl |} ]
  end.

(** A string with only its first character upper-cased. *)
Definition capitalize_first (s : string) : string :=
  match s with
  | EmptyString => EmptyString
  | String c rest => String (Py.upper_char c) rest
  end.

(** A string without the character [c]. *)
Definition free_of (c : ascii) (s : string) : Prop := Py.contains c s = false.

(** The command that clears the screen on the platform of [env]. *)
Definition clear_command (env : Env) : string :=
  if String.eqb (os_name env) "nt" then "cls" else "clear".

(** ** Reading the branch protection settings *)

Definition no_required_status_checks (settings : Json.value) : Prop :=
  Json.field "required_status_checks" settings = Some Json.Null.

Definition required_approving_reviews (settings : Json.value) (n : Z) : Prop :=
  exists reviews,
    Json.field "required_pull_request_reviews" settings = Some reviews /\
    Json.field "required_approving_review_count" reviews = Some (Json.Int n).

Definition force_pushes_allowed (settings : Json.value) (b : bool) : Prop :=
  Json.field "allow_force_pushes" settings = Some (Json.Bool b).

Definition deletions_allowed (settings : Json.value) (b : bool) : Prop :=
  Json.field "allow_deletions" settings = Some (Json.Bool b).

(** [enforce_admins]: whether the protection is enforced on administrators
    too.  With [false], administrators are exempt from it. *)
Definition enforced_on_admins (settings : Json.value) (b : bool) : Prop :=
  Json.field "enforce_admins" settings = Some (Json.Bool b).

(** The text of the settings, as it goes to [gh api] on standard input. *)
Definition protection_payload : string :=
  let q := fun key : string => Json.dquote ++ key ++ Json.dquote in
  "{" ++ q "required_status_checks" ++ ": null, "
      ++ q "enforce_admins" ++ ": false, "
      ++ q "required_pull_request_reviews" ++ ": {"
      ++ q "required_approving_review_count" ++ ": 1}, "
      ++ q "restrictions" ++ ": null, "
      ++ q "allow_force_pushes" ++ ": false, "
      ++ q "allow_deletions" ++ ": false}".

(** ** Some worlds to run the script in *)

(** Every program exits with status 0 and prints nothing. *)
Definition all_ok : list Event -> Call -> Outcome := fun _ _ => Exited 0 "" "".

(** No program can be started. *)
Definition nothing_starts : list Event -> Call -> Outcome :=
  fun _ _ => Refused "No such file or directory".

(** Every program exits with the given status after writing bytes that are
    not text. *)
Definition writes_garbage (code : Z) : list Event -> Call -> Outcome :=
  fun _ _ => Garbled code.

(** [gh repo view] exits with status 1; everything else goes well. *)
Definition view_fails : list Event -> Call -> Outcome :=
  fun _ c =>
    match c with
    | CheckOutput _ _ => Exited 1 "" "no git remotes found"
    | _ => Exited 0 "" ""
    end.

Definition script_name : string := "create_github_repos.py".

Definition world (argv : list string) (args : Namespace)
                 (o : list Event -> Call -> Outcome) : Env :=
  {| os_name := "posix"; sys_argv := argv; parsed_args := args; oracle := o |}.

(** [create_github_repos.py -f sandbox.two-sum -rd "two sum problem" -rv private] *)
Definition two_sum_argv : list string :=
  [script_name; "-f"; "sandbox.two-sum"; "-rd"; "two sum problem"; "-rv"; "private"].

Definition two_sum_args : Namespace :=
  {| arg_folder_name := Some "sandbox.two-sum";
     arg_repo_desc := Some "two sum problem";
     arg_repo_visibility := Some "private" |}.

(** [create_github_repos.py], with nothing after it. *)
Definition no_args : Namespace :=
  {| arg_folder_name := None; arg_repo_desc := None; arg_repo_visibility := None |}.

(** The calls of the flow for that command line. *)
Definition two_sum_calls : list Call :=
  let cwd := Some "./python-challenge-two-sum" in
  [ SubprocessRun ["gh"; "auth"; "status"] None None;
    SubprocessRun ["gh"; "repo"; "create"; "python-challenge-two-sum"; "--private";
                   "--description"; "Two sum problem"; "--clone"; "--disable-wiki"]
                  None None;
    SubprocessRun ["gh"; "repo"; "edit"; "--enable-projects=false";
                   "--delete-branch-on-merge"] cwd None;
    CheckOutput Script.get_repo_cmd cwd;
    AppendFile "./python-challenge-two-sum/README.md" ("Two sum problem" ++ nl);
    SubprocessRun ["git"; "add"; "README.md"] cwd None;
    SubprocessRun ["git"; "commit"; "-m"; "Initial commit"] cwd None;
    SubprocessRun ["git"; "branch"; "-M"; "main"] cwd None;
    SubprocessRun ["git"; "push"; "origin"; "main"] cwd None;
    SubprocessRun ["mv"; "python-challenge-two-sum"; "sandbox.two-sum"] None None ].

(** Some letter of the string is a capital: an ASCII one or the sigma. *)
Fixpoint has_capital (s : string) : bool :=
  match s with
  | EmptyString => false
  | String c s' =>
      match s' with
      | String d rest =>
          if Py.is_capital_sigma c d then true
          else if Py.is_small_sigma c d then has_capital rest
          else Py.is_upper c || has_capital s'
      | EmptyString => Py.is_upper c
      end
  end.

(** ** Reading the output *)

(** The line is a [print] of exactly the text [s]. *)
Definition is_text (s : string) (l : Line) : bool :=
  match fragments l with
  | [Text t] => String.eqb t s
  | _ => false
  end.

(** Some line of the output is exactly the text [s]. *)
Definition printed (s : string) (lines : list Line) : bool := existsb (is_text s) lines.

(** The exception a call raises when it is made outside [run_command]:
    [check_output] raises on a status other than 0, on output that is not
    text and on a refused launch; adding to the file raises when it is
    refused and when the text cannot be encoded. *)
Definition escapes (e : Event) : option exn :=
  match e with
  | (CheckOutput cmd _, Exited code out _) =>
      if (code =? 0)%Z then None else Some (CalledProcessError code cmd (Some out) None)
  | (CheckOutput _ _, Garbled _) => Some UnicodeDecodeError
  | (CheckOutput _ _, Refused message) => Some (OSError message)
  | (AppendFile _ _, Garbled _) => Some UnicodeEncodeError
  | (AppendFile _ _, Refused message) => Some (OSError message)
  | _ => None
  end.

(** The exception the last call of a trace raises, if it raises one. *)
Definition escapes_last (tr : list Event) : option exn :=
  match rev tr with
  | e :: _ => escapes e
  | [] => None
  end.

(** The calls of [init_repo], in order. *)
Definition init_calls (repo_name repo_desc : string) : list Call :=
  let cwd := Some ("./" ++ repo_name) in
  [ CheckOutput Script.get_repo_cmd cwd;
    AppendFile ("./" ++ repo_name ++ "/README.md") (repo_desc ++ nl);
    SubprocessRun ["git"; "add"; "README.md"] cwd None;
    SubprocessRun ["git"; "commit"; "-m"; "Initial commit"] cwd None;
    SubprocessRun ["git"; "branch"; "-M"; "main"] cwd None;
    SubprocessRun ["git"; "push"; "origin"; "main"] cwd None ].

(** A [gh api ...] command. *)
Definition is_gh_api (c : Call) : bool :=
  match c with
  | SubprocessRun (program :: sub :: _) _ _ => String.eqb program "gh" && String.eqb sub "api"
  | _ => false
  end.

(** The arguments of an [mv] command. *)
Definition mv_arguments (c : Call) : option (list string) :=
  match c with
  | SubprocessRun (program :: arguments) _ _ =>
      if String.eqb program "mv" then Some arguments else None
  | _ => None
  end.

(** The directory a call runs in ([None]: the directory of the process). *)
Definition call_cwd (c : Call) : option string :=
  match c with
  | SubprocessRun _ cwd _ | CheckOutput _ cwd => cwd
  | _ => None
  end.

(** A [git ...] command. *)
Definition is_git (c : Call) : bool :=
  match c with
  | SubprocessRun (program :: _) _ _ => String.eqb program "git"
  | _ => false
  end.

(** * Properties *)

(** ** Strings *)

Section StringFacts.

(** Induction two characters at a time, the way [lower_from] reads. *)
Lemma string_ind2 (P : string -> Prop) :
  P EmptyString ->
  (forall c, P (String c EmptyString)) ->
  (forall c d rest, P rest -> P (String d rest) -> P (String c (String d rest))) ->
  forall s, P s.
Proof.
  intros H0 H1 H2.
  assert (H : forall s, P s /\ forall c, P (String c s)).
  { induction s as [|d rest [IH1 IH2]].
    - split; [exact H0|exact H1].
    - split; [apply IH2|]. intros c. apply H2; [exact IH1|apply IH2]. }
  intros s. apply H.
Qed.

Lemma lower_char_keeps_separator (c sep : ascii) :
  Py.is_cased sep = false ->
  Ascii.eqb (Py.lower_char c) sep = Ascii.eqb c sep.
Proof.
  intros Hsep.
  destruct (Ascii.eqb_spec c sep) as [->|Hne].
  - unfold Py.lower_char.
    unfold Py.is_cased in Hsep. apply orb_false_elim in Hsep as [-> _].
    apply Ascii.eqb_refl.
  - apply Ascii.eqb_neq. intros Heq. subst sep.
    revert Hsep Hne.
    destruct c as [[] [] [] [] [] [] [] []]; vm_compute; congruence.
Qed.

Lemma lower_char_idempotent (c : ascii) :
  Py.lower_char (Py.lower_char c) = Py.lower_char c.
Proof. destruct c as [[] [] [] [] [] [] [] []]; reflexivity. Qed.

Lemma lower_char_not_upper (c : ascii) : Py.is_upper (Py.lower_char c) = false.
Proof. destruct c as [[] [] [] [] [] [] [] []]; reflexivity. Qed.

Lemma lower_char_of_lower (c : ascii) : Py.is_upper c = false -> Py.lower_char c = c.
Proof. unfold Py.lower_char. now intros ->. Qed.

(** Lower-casing moves no character onto or off a byte above 127. *)
Lemma lower_char_byte (c : ascii) (n : nat) :
  (128 <= n)%nat ->
  (nat_of_ascii (Py.lower_char c) =? n)%nat = (nat_of_ascii c =? n)%nat.
Proof.
  intros Hn.
  destruct (Nat.eqb_spec (nat_of_ascii c) n) as [Hc|Hc].
  - unfold Py.lower_char, Py.is_upper. rewrite Hc.
    replace (n <=? 90)%nat with false by (symmetry; apply Nat.leb_gt; lia).
    rewrite andb_false_r, Hc. apply Nat.eqb_refl.
  - apply Nat.eqb_neq. intros Heq. apply Hc. rewrite <- Heq.
    unfold Py.lower_char.
    destruct (Py.is_upper c) eqn:Hup; [|reflexivity].
    exfalso. rewrite <- Heq in Hn. unfold Py.lower_char in Hn. rewrite Hup in Hn.
    revert Hup Hn. clear.
    destruct c as [[] [] [] [] [] [] [] []]; vm_compute; intros; try discriminate; lia.
Qed.

Lemma capital_sigma_lower_char (c d : ascii) :
  Py.is_capital_sigma (Py.lower_char c) (Py.lower_char d) = Py.is_capital_sigma c d.
Proof.
  unfold Py.is_capital_sigma. now rewrite !lower_char_byte by lia.
Qed.

Lemma small_sigma_lower_char (c d : ascii) :
  Py.is_small_sigma (Py.lower_char c) (Py.lower_char d) = Py.is_small_sigma c d.
Proof.
  unfold Py.is_small_sigma. now rewrite !lower_char_byte by lia.
Qed.

Lemma capital_sigma_bytes (c d : ascii) :
  Py.is_capital_sigma c d = true -> c = ascii_of_nat 206 /\ d = ascii_of_nat 163.
Proof.
  unfold Py.is_capital_sigma. intros H. apply andb_prop in H as [Hc Hd].
  apply Nat.eqb_eq in Hc, Hd.
  split; [rewrite <- Hc|rewrite <- Hd]; symmetry; apply ascii_nat_embedding.
Qed.

Lemma small_sigma_bytes (c d : ascii) :
  Py.is_small_sigma c d = true ->
  c = ascii_of_nat 207 /\ (d = ascii_of_nat 130 \/ d = ascii_of_nat 131).
Proof.
  unfold Py.is_small_sigma. intros H. apply andb_prop in H as [Hc Hd].
  apply Nat.eqb_eq in Hc. apply orb_prop in Hd.
  split; [rewrite <- Hc; symmetry; apply ascii_nat_embedding|].
  destruct Hd as [Hd|Hd]; apply Nat.eqb_eq in Hd; [left|right];
    rewrite <- Hd; symmetry; apply ascii_nat_embedding.
Qed.

Lemma lower_from_step (b : bool) (c d : ascii) (rest : string) :
  Py.lower_from b (String c (String d rest)) =
    if Py.is_capital_sigma c d then
      String (ascii_of_nat 207)
             (String (Py.small_sigma (b && negb (Py.cased_follows rest)))
                     (Py.lower_from true rest))
    else if Py.is_small_sigma c d then
      String c (String d (Py.lower_from true rest))
    else
      String (Py.lower_char c)
             (Py.lower_from (if Py.is_cased c then true
                             else if Py.is_case_ignorable c then b
                             else false) (String d rest)).
Proof. reflexivity. Qed.

Lemma has_capital_step (c d : ascii) (rest : string) :
  has_capital (String c (String d rest)) =
    if Py.is_capital_sigma c d then true
    else if Py.is_small_sigma c d then has_capital rest
    else Py.is_upper c || has_capital (String d rest).
Proof. reflexivity. Qed.

(** Where a lower-cased string starts: with the lower-cased first
    character, or with the first byte of a small sigma. *)
Lemma lower_from_head (b : bool) (d : ascii) (rest : string) :
  exists d' rest',
    Py.lower_from b (String d rest) = String d' rest' /\
    (d' = Py.lower_char d \/ nat_of_ascii d' = 207%nat).
Proof.
  destruct rest as [|e rest]; cbn [Py.lower_from].
  - eexists _, _. split; [reflexivity|now left].
  - destruct (Py.is_capital_sigma d e) eqn:Hcap.
    + eexists _, _. split; [reflexivity|now right].
    + destruct (Py.is_small_sigma d e) eqn:Hsmall.
      * apply small_sigma_bytes in Hsmall as [-> _].
        eexists _, _. split; [reflexivity|now right].
      * eexists _, _. split; [reflexivity|now left].
Qed.

(** After a character that is not the start of a sigma, the lower-cased
    text does not start a sigma either. *)
Lemma lower_from_no_new_sigma (b : bool) (c d : ascii) (rest : string) :
  Py.is_capital_sigma c d = false ->
  Py.is_small_sigma c d = false ->
  exists d' rest',
    Py.lower_from b (String d rest) = String d' rest' /\
    Py.is_capital_sigma (Py.lower_char c) d' = false /\
    Py.is_small_sigma (Py.lower_char c) d' = false.
Proof.
  intros Hcap Hsmall.
  destruct (lower_from_head b d rest) as (d' & rest' & Heq & [->|H207]).
  - exists (Py.lower_char d), rest'. split; [exact Heq|].
    now rewrite capital_sigma_lower_char, small_sigma_lower_char.
  - exists d', rest'. split; [exact Heq|].
    unfold Py.is_capital_sigma, Py.is_small_sigma. rewrite H207. cbn.
    now rewrite !andb_false_r.
Qed.

(** On ASCII text [lower] is the lower-casing character by character. *)
Lemma lower_from_ascii (s : string) :
  forall b, Py.is_ascii s = true -> Py.lower_from b s = Py.lower_ascii s.
Proof.
  induction s as [| c | c d rest _ IH] using string_ind2; intros b Hs.
  - reflexivity.
  - reflexivity.
  - cbn [Py.is_ascii] in Hs. apply andb_prop in Hs as [Hc Hs].
    apply Nat.ltb_lt in Hc.
    rewrite lower_from_step. cbn [Py.lower_ascii].
    unfold Py.is_capital_sigma, Py.is_small_sigma.
    replace (nat_of_ascii c =? 206)%nat with false by (symmetry; apply Nat.eqb_neq; lia).
    replace (nat_of_ascii c =? 207)%nat with false by (symmetry; apply Nat.eqb_neq; lia).
    cbn [andb]. rewrite IH by exact Hs. reflexivity.
Qed.

Lemma lower_ascii_text (s : string) :
  Py.is_ascii s = true -> Py.lower s = Py.lower_ascii s.
Proof. apply lower_from_ascii. Qed.

Lemma lower_ascii_is_ascii (s : string) :
  Py.is_ascii s = true -> Py.is_ascii (Py.lower_ascii s) = true.
Proof.
  induction s as [|c s IH]; cbn; [reflexivity|].
  intros H. apply andb_prop in H as [Hc Hs]. rewrite (IH Hs), andb_true_r.
  revert Hc. clear. destruct c as [[] [] [] [] [] [] [] []]; vm_compute; congruence.
Qed.

Lemma lower_ascii_idempotent (s : string) :
  Py.lower_ascii (Py.lower_ascii s) = Py.lower_ascii s.
Proof.
  induction s as [|c s IH]; cbn; [reflexivity|].
  now rewrite lower_char_idempotent, IH.
Qed.

Lemma split_nonempty (sep : ascii) (s : string) : Py.split sep s <> [].
Proof.
  induction s as [|c s IH]; cbn; [discriminate|].
  destruct (Ascii.eqb c sep); [discriminate|].
  destruct (Py.split sep s); [contradiction|discriminate].
Qed.

(** Lower-casing character by character commutes with splitting at a
    character without case. *)
Lemma split_lower_ascii (sep : ascii) (s : string) :
  Py.is_cased sep = false ->
  Py.split sep (Py.lower_ascii s) = map Py.lower_ascii (Py.split sep s).
Proof.
  intros Hsep. induction s as [|c s IH]; cbn; [reflexivity|].
  rewrite lower_char_keeps_separator by assumption.
  destruct (Ascii.eqb c sep); cbn; [now rewrite IH|].
  rewrite IH.
  pose proof (split_nonempty sep s) as Hne.
  destruct (Py.split sep s); [contradiction|reflexivity].
Qed.

Lemma split_pieces_ascii (sep : ascii) (s piece : string) :
  Py.is_ascii s = true -> In piece (Py.split sep s) -> Py.is_ascii piece = true.
Proof.
  revert piece. induction s as [|c s IH]; cbn; intros piece Hs Hin.
  - destruct Hin as [<-|[]]. reflexivity.
  - apply andb_prop in Hs as [Hc Hs].
    destruct (Ascii.eqb c sep).
    + destruct Hin as [<-|Hin]; [reflexivity|now apply IH].
    + pose proof (split_nonempty sep s) as Hne.
      destruct (Py.split sep s) as [|p ps]; [contradiction|].
      destruct Hin as [<-|Hin].
      * cbn. rewrite Hc. apply IH; [exact Hs|now left].
      * apply IH; [exact Hs|now right].
Qed.

Lemma split_free (sep : ascii) (s : string) :
  free_of sep s -> Py.split sep s = [s].
Proof.
  unfold free_of. induction s as [|c s IH]; cbn; [reflexivity|].
  intros H. apply orb_false_elim in H as [Hc Hs].
  rewrite Hc, (IH Hs). reflexivity.
Qed.

Lemma split_at_first (sep : ascii) (x y : string) :
  free_of sep x ->
  Py.split sep (x ++ String sep y) = x :: Py.split sep y.
Proof.
  unfold free_of. induction x as [|c x IH]; cbn.
  - intros _. now rewrite Ascii.eqb_refl.
  - intros H. apply orb_false_elim in H as [Hc Hx].
    rewrite Hc, (IH Hx). reflexivity.
Qed.

Lemma second_piece_of_dotted (sep : ascii) (x y : string) :
  free_of sep x -> free_of sep y ->
  nth_error (Py.split sep (x ++ String sep y)) 1 = Some y.
Proof.
  intros Hx Hy. now rewrite split_at_first, split_free.
Qed.

(** A string has a second piece exactly when it holds the separator. *)
Lemma second_piece_iff (sep : ascii) (s : string) :
  nth_error (Py.split sep s) 1 = None <-> free_of sep s.
Proof.
  unfold free_of. split.
  - induction s as [|c s IH]; cbn; [reflexivity|].
    destruct (Ascii.eqb c sep).
    + pose proof (split_nonempty sep s) as Hne.
      destruct (Py.split sep s); [contradiction|discriminate].
    + pose proof (split_nonempty sep s) as Hne.
      destruct (Py.split sep s) as [|p ps]; [contradiction|].
      cbn in *. exact IH.
  - intros H. now rewrite split_free.
Qed.

(** Lower-casing neither makes nor removes a full stop. *)
Lemma lower_from_contains_dot (s : string) :
  forall b, Py.contains "." (Py.lower_from b s) = Py.contains "." s.
Proof.
  induction s as [| c | c d rest IHrest IH] using string_ind2; intros b.
  - reflexivity.
  - cbn. now rewrite lower_char_keeps_separator.
  - rewrite lower_from_step.
    destruct (Py.is_capital_sigma c d) eqn:Hcap.
    + apply capital_sigma_bytes in Hcap as [-> ->].
      cbn [Py.contains]. rewrite IHrest.
      destruct (b && negb (Py.cased_follows rest)); reflexivity.
    + destruct (Py.is_small_sigma c d) eqn:Hsmall.
      * cbn [Py.contains]. now rewrite IHrest.
      * cbn [Py.contains]. rewrite IH.
        rewrite lower_char_keeps_separator by reflexivity. reflexivity.
Qed.

Lemma lower_contains_dot (s : string) :
  Py.contains "." (Py.lower s) = Py.contains "." s.
Proof. apply lower_from_contains_dot. Qed.

Lemma lower_free_of_dot (s : string) : free_of "." s -> free_of "." (Py.lower s).
Proof. unfold free_of. now rewrite lower_contains_dot. Qed.

(** A lower-cased string holds no capital. *)
Lemma lower_from_no_capital (s : string) :
  forall b, has_capital (Py.lower_from b s) = false.
Proof.
  induction s as [| c | c d rest IHrest IH] using string_ind2; intros b.
  - reflexivity.
  - cbn. apply lower_char_not_upper.
  - rewrite lower_from_step.
    destruct (Py.is_capital_sigma c d) eqn:Hcap.
    + rewrite has_capital_step.
      destruct (b && negb (Py.cased_follows rest)); cbn; apply IHrest.
    + destruct (Py.is_small_sigma c d) eqn:Hsmall.
      * rewrite has_capital_step, Hcap, Hsmall. apply IHrest.
      * set (b' := if Py.is_cased c then true
                   else if Py.is_case_ignorable c then b else false).
        destruct (lower_from_no_new_sigma b' c d rest Hcap Hsmall)
          as (d' & rest' & Heq & Hcap' & Hsmall').
        specialize (IH b'). rewrite Heq in *.
        rewrite has_capital_step, Hcap', Hsmall', lower_char_not_upper.
        exact IH.
Qed.

(** A string without capitals is its own lower-casing. *)
Lemma lower_from_fixed (s : string) :
  forall b, has_capital s = false -> Py.lower_from b s = s.
Proof.
  induction s as [| c | c d rest IHrest IH] using string_ind2; intros b Hs.
  - reflexivity.
  - cbn in *. now rewrite lower_char_of_lower.
  - rewrite has_capital_step in Hs. rewrite lower_from_step.
    destruct (Py.is_capital_sigma c d); [discriminate|].
    destruct (Py.is_small_sigma c d).
    + now rewrite IHrest.
    + apply orb_false_elim in Hs as [Hc Hs].
      now rewrite lower_char_of_lower, IH.
Qed.

Lemma has_capital_after_prefix (t : string) :
  has_capital (Script.PREFIX ++ t) = has_capital t.
Proof. destruct t; reflexivity. Qed.

Lemma substring_whole (s : string) : String.substring 0 (String.length s) s = s.
Proof. induction s as [|c s IH]; cbn; [reflexivity|now rewrite IH]. Qed.

Lemma str_from_1 (c : ascii) (rest : string) : str_from (String c rest) 1 = rest.
Proof.
  unfold str_from. cbn [String.length].
  replace (S (String.length rest) - 1)%nat with (String.length rest) by lia.
  cbn. apply substring_whole.
Qed.

Lemma title_one_char (c : ascii) :
  Py.title (String c EmptyString) = String (Py.upper_char c) EmptyString.
Proof. reflexivity. Qed.

End StringFacts.

Example lower_mixed : Py.lower "SandBox.Two-Sum" = "sandbox.two-sum".
Proof. reflexivity. Qed.

(** The capital sigma after a cased letter and a full stop becomes the
    final sigma; on its own it becomes the plain small sigma. *)
Example lower_final_sigma : Py.lower "A.Σ" = "a.ς" /\ Py.lower "Σ" = "σ".
Proof. split; reflexivity. Qed.

Example lower_sigma_inside_word : Py.lower "aΣ.b" = "aσ.b" /\ Py.lower "aΣ. b" = "aς. b".
Proof. split; reflexivity. Qed.

Example title_words : Py.title "two sUM" = "Two Sum".
Proof. reflexivity. Qed.

Example split_three : Py.split "." "a.b.c" = ["a"; "b"; "c"].
Proof. reflexivity. Qed.

Example split_without_separator : Py.split "." "sandbox" = ["sandbox"].
Proof. reflexivity. Qed.

Example split_of_empty : Py.split "." "" = [""].
Proof. reflexivity. Qed.

Example strip_line : Py.strip ("  octo/repo" ++ nl) = "octo/repo".
Proof. reflexivity. Qed.

(** The no-break space and the ideographic space are white space too. *)
Example strip_wide_space : Py.strip "　octo/repo " = "octo/repo".
Proof. reflexivity. Qed.

(** ** The argument resolver *)

Section ArgumentParser.

Variable env : Env.
Variable st : State.

Let args : Namespace := parsed_args env.

(** The description and the visibility [argument_parser] hands back when
    it returns. *)
Definition resolved_desc : string :=
  match arg_repo_desc args with
  | Some d => capitalize_first d
  | None => ""
  end.

Definition resolved_visibility : string :=
  match arg_repo_visibility args with
  | Some v => Py.lower v
  | None => "public"
  end.

(** With some argument on the command line, a folder name whose
    lower-casing has a second piece and a description that is absent or not
    empty, [argument_parser] returns, and touches neither the trace nor the
    output: the repository name is made of that second piece, lower-cased
    once more. *)
Lemma argument_parser_returns (f piece : string) :
  List.length (sys_argv env) <> 1%nat ->
  arg_folder_name args = Some f ->
  nth_error (Py.split "." (Py.lower f)) 1 = Some piece ->
  arg_repo_desc args <> Some "" ->
  Script.argument_parser env st =
    (Ok (Py.lower f, Script.add_prefix (Py.lower piece),
         resolved_desc, resolved_visibility), st).
Proof.
  intros Hargv Hf Hsplit Hdesc.
  unfold Script.argument_parser, resolved_desc, resolved_visibility, bind, ask.
  subst args.
  apply Nat.eqb_neq in Hargv. rewrite Hargv, Hf.
  destruct (arg_repo_desc (parsed_args env)) as [[|c rest]|].
  - congruence.
  - cbn [str_item String.get ret]. rewrite str_from_1.
    unfold list_item. rewrite Hsplit. unfold ret.
    destruct (arg_repo_visibility (parsed_args env)); reflexivity.
  - unfold ret, list_item. rewrite Hsplit. unfold ret.
    destruct (arg_repo_visibility (parsed_args env)); reflexivity.
Qed.

(** For an ASCII folder name the pieces can be taken before or after
    lower-casing: the repository name is made of the second piece of the
    folder name as it was typed. *)
Lemma argument_parser_returns_ascii (f seg : string) :
  List.length (sys_argv env) <> 1%nat ->
  arg_folder_name args = Some f ->
  Py.is_ascii f = true ->
  nth_error (Py.split "." f) 1 = Some seg ->
  arg_repo_desc args <> Some "" ->
  Script.argument_parser env st =
    (Ok (Py.lower f, Script.add_prefix (Py.lower seg),
         resolved_desc, resolved_visibility), st).
Proof.
  intros Hargv Hf Hascii Hseg Hdesc.
  assert (Hseg_ascii : Py.is_ascii seg = true).
  { apply (split_pieces_ascii "." f); [exact Hascii|]. eapply nth_error_In, Hseg. }
  rewrite (argument_parser_returns (f := f) (piece := Py.lower seg)); try assumption.
  - rewrite (lower_ascii_text seg Hseg_ascii).
    rewrite (lower_ascii_text _ (lower_ascii_is_ascii seg Hseg_ascii)).
    now rewrite lower_ascii_idempotent.
  - rewrite (lower_ascii_text f Hascii), (lower_ascii_text seg Hseg_ascii).
    rewrite split_lower_ascii by reflexivity.
    now rewrite nth_error_map, Hseg.
Qed.

(** An empty description stops [argument_parser] at [repo_desc[0]]. *)
Lemma argument_parser_empty_desc :
  List.length (sys_argv env) <> 1%nat ->
  arg_repo_desc args = Some "" ->
  Script.argument_parser env st =
    (Raise (IndexError "string index out of range"), st).
Proof.
  intros Hargv Hdesc.
  unfold Script.argument_parser, bind, ask. subst args.
  apply Nat.eqb_neq in Hargv. rewrite Hargv, Hdesc. reflexivity.
Qed.

(** A folder name without a second piece stops it at [split(".")[1]]. *)
Lemma argument_parser_no_second_piece :
  List.length (sys_argv env) <> 1%nat ->
  nth_error (Py.split "." (match arg_folder_name args with
                           | Some f => Py.lower f
                           | None => ""
                           end)) 1 = None ->
  arg_repo_desc args <> Some "" ->
  Script.argument_parser env st =
    (Raise (IndexError "list index out of range"), st).
Proof.
  intros Hargv Hseg Hdesc.
  unfold Script.argument_parser, bind, ask. subst args.
  apply Nat.eqb_neq in Hargv. rewrite Hargv.
  destruct (arg_repo_desc (parsed_args env)) as [[|c rest]|].
  - congruence.
  - cbn [str_item String.get ret]. unfold list_item. now rewrite Hseg.
  - unfold ret, list_item. now rewrite Hseg.
Qed.

(** Without arguments it prints the help and leaves with [sys.exit(1)]. *)
Lemma argument_parser_usage :
  List.length (sys_argv env) = 1%nat ->
  Script.argument_parser env st =
    (Raise (SystemExit 1),
     {| trace := trace st;
        stdout := (stdout st ++ [{| fragments := [HelpText]; ending := "" |}])%list |}).
Proof.
  intros Hargv.
  unfold Script.argument_parser, bind, ask.
  apply Nat.eqb_eq in Hargv. rewrite Hargv. reflexivity.
Qed.

(** [argument_parser] starts nothing. *)
Lemma argument_parser_trace :
  trace (snd (Script.argument_parser env st)) = trace st.
Proof.
  unfold Script.argument_parser, bind, ask.
  destruct (List.length (sys_argv env) =? 1)%nat; [reflexivity|].
  destruct (arg_repo_desc (parsed_args env)) as [[|c rest]|];
    cbn [str_item String.get ret raise fst snd]; try reflexivity;
    unfold list_item, ret, raise;
    destruct (nth_error _ 1); reflexivity.
Qed.

End ArgumentParser.

(** The description given is the empty string, or it is not. *)
Lemma string_dec_option (d : option string) : {d = Some ""} + {d <> Some ""}.
Proof.
  destruct d as [[|c rest]|];
    [left; reflexivity | right; discriminate | right; discriminate].
Qed.

(** Everything [argument_parser] has done when it returns. *)
Lemma argument_parser_ok_inv (env : Env) (st st' : State)
                             (folder_name repo_name repo_desc repo_visibility : string) :
  Script.argument_parser env st =
    (Ok (folder_name, repo_name, repo_desc, repo_visibility), st') ->
  st' = st /\
  List.length (sys_argv env) <> 1%nat /\
  arg_repo_desc (parsed_args env) <> Some "" /\
  repo_desc = resolved_desc env /\
  repo_visibility = resolved_visibility env /\
  exists f piece,
    arg_folder_name (parsed_args env) = Some f /\
    nth_error (Py.split "." (Py.lower f)) 1 = Some piece /\
    folder_name = Py.lower f /\
    repo_name = Script.add_prefix (Py.lower piece).
Proof.
  intros Hret.
  destruct (Nat.eq_dec (List.length (sys_argv env)) 1) as [Hargv|Hargv].
  { rewrite argument_parser_usage in Hret by assumption. discriminate Hret. }
  destruct (string_dec_option (arg_repo_desc (parsed_args env))) as [Hempty|Hdesc].
  { rewrite argument_parser_empty_desc in Hret by assumption. discriminate Hret. }
  destruct (arg_folder_name (parsed_args env)) as [f|] eqn:Hf.
  - destruct (nth_error (Py.split "." (Py.lower f)) 1) as [piece|] eqn:Hpiece.
    + rewrite (argument_parser_returns env st (f := f) (piece := piece)) in Hret
        by assumption.
      inversion Hret. repeat split; try assumption. now exists f, piece.
    + rewrite argument_parser_no_second_piece in Hret; try assumption; [discriminate Hret|].
      now rewrite Hf.
  - rewrite argument_parser_no_second_piece in Hret; try assumption; [discriminate Hret|].
    now rewrite Hf.
Qed.

(** C1, as the code has it.  For a folder name [F] given with [-f], the
    repository name [argument_parser] returns is ["python-challenge-"]
    followed by the second dot-delimited piece of [F.lower()], lower-cased
    once more.  When [F] is ASCII text of the form [x.y], neither [x] nor
    [y] holding a dot, that is ["python-challenge-" + y.lower()], and
    [argument_parser] does return it when the description is absent or not
    empty. *)
Theorem repo_name_of_dotted_folder (env : Env) (st : State) (F : string) :
  List.length (sys_argv env) <> 1%nat ->
  arg_folder_name (parsed_args env) = Some F ->
  (forall folder_name repo_name repo_desc repo_visibility st',
      Script.argument_parser env st =
        (Ok (folder_name, repo_name, repo_desc, repo_visibility), st') ->
      exists piece,
        nth_error (Py.split "." (Py.lower F)) 1 = Some piece /\
        repo_name = "python-challenge-" ++ Py.lower piece) /\
  (forall x y,
      F = x ++ "." ++ y -> Py.is_ascii F = true ->
      free_of "." x -> free_of "." y ->
      arg_repo_desc (parsed_args env) <> Some "" ->
      exists folder_name repo_desc repo_visibility,
        Script.argument_parser env st =
          (Ok (folder_name, "python-challenge-" ++ Py.lower y, repo_desc, repo_visibility),
           st)).
Proof.
  intros Hargv HF. split.
  - intros folder_name repo_name repo_desc repo_visibility st' Hret.
    apply argument_parser_ok_inv in Hret
      as (_ & _ & _ & _ & _ & f & piece & Hf & Hpiece & _ & ->).
    rewrite HF in Hf. injection Hf as <-.
    exists piece. split; [exact Hpiece|reflexivity].
  - intros x y -> Hascii Hx Hy Hdesc.
    eexists _, _, _.
    apply (argument_parser_returns_ascii env st (f := x ++ "." ++ y) (seg := y));
      try assumption.
    apply second_piece_of_dotted; assumption.
Qed.

Lemma repo_name_of_dotted_folder_witness :
  exists folder_name repo_desc repo_visibility,
    Script.argument_parser
      (world [script_name; "-f"; "Katas.Two-SUM"]
             {| arg_folder_name := Some "Katas.Two-SUM";
                arg_repo_desc := None; arg_repo_visibility := None |} all_ok)
      initial =
      (Ok (folder_name, "python-challenge-two-sum", repo_desc, repo_visibility), initial).
Proof.
  apply (proj2 (@repo_name_of_dotted_folder
                  (world [script_name; "-f"; "Katas.Two-SUM"]
                         {| arg_folder_name := Some "Katas.Two-SUM";
                            arg_repo_desc := None; arg_repo_visibility := None |} all_ok)
                  initial "Katas.Two-SUM" ltac:(cbn; lia) eq_refl)
               "Katas" "Two-SUM");
    [ reflexivity | reflexivity | reflexivity | reflexivity | discriminate ].
Defined.

(** C1 as it is stated fails here: for the folder name [A.Σ], of the form
    [x.y] with [x = A] and [y = Σ], the name returned ends in the final
    sigma, because the sigma is lower-cased inside the folder name, after a
    letter; ["Σ".lower()] is the plain small sigma. *)
Lemma repo_name_final_sigma :
  Script.argument_parser
    (world [script_name; "-f"; "A.Σ"]
           {| arg_folder_name := Some "A.Σ";
              arg_repo_desc := None; arg_repo_visibility := None |} all_ok)
    initial =
    (Ok ("a.ς", "python-challenge-ς", "", "public"), initial) /\
  "A.Σ" = "A" ++ "." ++ "Σ" /\
  free_of "." "A" /\ free_of "." "Σ" /\
  "python-challenge-ς" <> "python-challenge-" ++ Py.lower "Σ".
Proof.
  repeat split. vm_compute. discriminate.
Qed.

(** C6.  The empty description is not returned as it is:
    [argument_parser] raises [IndexError] on it, at [args.repo_desc[0]]. *)
Theorem empty_description_raises :
  Script.argument_parser
    (world [script_name; "-f"; "sandbox.two-sum"; "-rd"; ""]
           {| arg_folder_name := Some "sandbox.two-sum";
              arg_repo_desc := Some "";
              arg_repo_visibility := None |} all_ok)
    initial
  = (Raise (IndexError "string index out of range"), initial).
Proof. reflexivity. Qed.

(** ** The command runner *)

(** Unfolds the monad, leaving the answers of the oracle to case on. *)
Ltac run_monad :=
  cbv beta iota zeta delta
    [bind ret raise ask try_except print call os_system subprocess_run
     check_output append_file str_item list_item];
  cbn [fst snd trace stdout].

Section RunCommand.

Variable env : Env.
Variable st : State.
Variable cmd : list string.
Variable pCWD : option string.

Let c : Call := SubprocessRun cmd pCWD None.
Let o : Outcome := oracle env (trace st) c.

(** [run_command] makes one call, prints according to the answer, and
    always returns: no exception of the call leaves it. *)
Lemma run_command_spec :
  Script.run_command cmd pCWD env st =
    (Ok (run_command_result o),
     {| trace := (trace st ++ [(c, o)])%list;
        stdout := (stdout st ++ run_command_output cmd o)%list |}).
Proof.
  subst o c. unfold Script.run_command. run_monad.
  destruct (oracle env (trace st) (SubprocessRun cmd pCWD None))
    as [code out err|code|message];
    cbn [run_command_result run_command_output];
    [destruct (code =? 0)%Z| |].
  - now rewrite app_nil_r.
  - now rewrite <- !app_assoc.
  - reflexivity.
  - reflexivity.
Qed.

Lemma run_command_truthy :
  truthy (run_command_result o) = succeeded (c, o).
Proof.
  subst o c.
  destruct (oracle env (trace st) (SubprocessRun cmd pCWD None))
    as [code out err|code|message]; cbn; [|reflexivity|reflexivity].
  now destruct (code =? 0)%Z.
Qed.

End RunCommand.

(** When the output of the process is text, [run_command] returns [False]
    on every exit status other than 0 and [True] on the status 0; and it
    returns [True] in no other case. *)
Lemma run_command_when_text (env : Env) (st : State)
                            (cmd : list string) (pCWD : option string) :
  let o := oracle env (trace st) (SubprocessRun cmd pCWD None) in
  let r := fst (Script.run_command cmd pCWD env st) in
  (forall code out err, o = Exited code out err -> code <> 0%Z -> r = Ok PyFalse) /\
  (r = Ok PyTrue -> exists out err, o = Exited 0 out err) /\
  (forall out err, o = Exited 0 out err -> r = Ok PyTrue).
Proof.
  intros o r. subst r. rewrite run_command_spec. fold o. cbn [fst].
  repeat split.
  - intros code out err -> Hcode. cbn.
    apply Z.eqb_neq in Hcode. now rewrite Hcode.
  - destruct o as [code out err|code|message]; cbn; [|discriminate|discriminate].
    destruct (Z.eqb_spec code 0) as [->|_]; [eauto|discriminate].
  - now intros out err ->.
Qed.

(** When the output of the process cannot be decoded, [subprocess.run]
    raises before the exit status is looked at; [run_command] prints its
    diagnostic and ends without [return], whatever the exit status. *)
Lemma run_command_garbled (env : Env) (st : State)
                          (cmd : list string) (pCWD : option string) (code : Z) :
  oracle env (trace st) (SubprocessRun cmd pCWD None) = Garbled code ->
  Script.run_command cmd pCWD env st =
    (Ok PyNone,
     {| trace := (trace st ++ [(SubprocessRun cmd pCWD None, Garbled code)])%list;
        stdout := (stdout st ++
                   [ {| fragments := [Text "❌ Unexpected error while running command ";
                                      ListRepr cmd; Text ". Error: ";
                                      ExnStr UnicodeDecodeError];
                        ending := nl |} ])%list |}).
Proof. intros H. rewrite run_command_spec, H. reflexivity. Qed.

(** C3.  A command that writes bytes that are not text and exits with
    status 3: [run_command] returns [None], not [False], although the exit
    status is not 0. *)
Theorem run_command_nonzero_without_text :
  let r := Script.run_command ["git"; "push"; "origin"; "main"] (Some "./r")
             (world two_sum_argv two_sum_args (writes_garbage 3)) initial in
  trace (snd r) =
    [(SubprocessRun ["git"; "push"; "origin"; "main"] (Some "./r") None, Garbled 3)] /\
  fst r = Ok PyNone /\
  fst r <> Ok PyFalse.
Proof.
  cbv zeta.
  rewrite (@run_command_garbled _ _ _ _ 3%Z) by reflexivity.
  repeat split. discriminate.
Qed.

(** When the operating system refuses to start the command, [run_command]
    prints its diagnostic and ends without [return]: the caller gets [None]. *)
Lemma run_command_refused (env : Env) (st : State)
                          (cmd : list string) (pCWD : option string) (message : string) :
  oracle env (trace st) (SubprocessRun cmd pCWD None) = Refused message ->
  Script.run_command cmd pCWD env st =
    (Ok PyNone,
     {| trace := (trace st ++ [(SubprocessRun cmd pCWD None, Refused message)])%list;
        stdout := (stdout st ++
                   [ {| fragments := [Text "❌ Unexpected error while running command ";
                                      ListRepr cmd; Text ". Error: ";
                                      ExnStr (OSError message)];
                        ending := nl |} ])%list |}).
Proof. intros H. rewrite run_command_spec, H. reflexivity. Qed.

(** C4.  A command whose executable does not exist: [run_command] prints
    the diagnostic, and what it returns is [None], not [False]. *)
Theorem run_command_launch_failure :
  let r := Script.run_command ["gh"; "auth"; "status"] None
             (world two_sum_argv two_sum_args nothing_starts) initial in
  fst r = Ok PyNone /\
  fst r <> Ok PyFalse /\
  stdout (snd r) =
    [ {| fragments := [Text "❌ Unexpected error while running command ";
                       ListRepr ["gh"; "auth"; "status"]; Text ". Error: ";
                       ExnStr (OSError "No such file or directory")];
         ending := nl |} ].
Proof.
  cbv zeta.
  rewrite (@run_command_refused _ _ _ _ "No such file or directory") by reflexivity.
  repeat split. discriminate.
Qed.

(** ** The orchestrator *)

Lemma fail_fastb_sound (tr : list Event) : fail_fastb tr = true -> fail_fast tr.
Proof.
  unfold fail_fastb, fail_fast. intros H before e after -> Hafter.
  rewrite removelast_app in H by discriminate.
  rewrite forallb_app in H. apply andb_prop in H as [_ H].
  destruct after as [|e' after]; [contradiction|].
  cbn in H. now apply andb_prop in H as [H _].
Qed.

(** Unfolds the steps of the script down to [run_command] and the calls. *)
Ltac run_script :=
  cbv beta iota zeta delta
    [Script.script Script.cls Script.main Script.print_parameters
     Script.is_logged_to_gh Script.create_gh_repo
     Script.configure_basic_repo_settings Script.init_repo Script.rename_folder
     bind ret raise ask try_except print call os_system subprocess_run
     check_output append_file str_item list_item];
  cbn [fst snd trace stdout].

(** One answer of the world at a time, in the order the script asks. *)
Ltac next_answer :=
  first
    [ match goal with
      | |- context [oracle ?e ?h ?c] =>
          let code := fresh "code" in
          let out := fresh "out" in
          let err := fresh "err" in
          let message := fresh "message" in
          destruct (oracle e h c) as [code out err|code|message];
          cbn [run_command_result run_command_output];
          [ try (destruct (Z.eqb_spec code 0) as [->|?]) | | ]
      end
    | rewrite run_command_spec ];
  cbn [truthy];
  cbv beta iota;
  cbn [fst snd trace stdout].

(** Closes a branch once the run is over: the events made, that each one
    but the last went well, and where in the pipeline the run stopped. *)
Ltac read_trace :=
  rewrite <- ?app_assoc; cbn [app];
  eexists; split; [reflexivity|]; split;
  [ apply fail_fastb_sound; reflexivity
  | match goal with
    | |- exists n, commands ?l = _ => exists (List.length l); reflexivity
    | |- _ => reflexivity
    end ].

(** What [main] does to the trace: it adds an initial part of the
    pipeline, of which only the last call may have failed. *)
Lemma main_runs_pipeline (env : Env) (st : State) :
  exists evs : list Event,
    trace (snd (Script.main env st)) = (trace st ++ evs)%list /\
    fail_fast evs /\
    match fst (Script.argument_parser env st) with
    | Ok (folder_name, repo_name, repo_desc, repo_visibility) =>
        exists n : nat,
          commands evs = firstn n (pipeline folder_name repo_name repo_desc repo_visibility)
    | Raise _ => evs = []
    end.
Proof.
  pose proof (argument_parser_trace env st) as Htrace.
  rewrite <- (app_nil_r (trace st)) in Htrace.
  unfold Script.main at 1, bind at 1.
  destruct (Script.argument_parser env st)
    as [[[[[folder_name repo_name] repo_desc] repo_visibility]|e] st1];
    cbn [snd fst] in *.
  - run_script. rewrite Htrace.
    repeat next_answer.
    all: read_trace.
  - rewrite Htrace. read_trace.
Qed.

(** C2.  The calls [main] makes are an initial part of the pipeline --
    authentication check, remote repository, settings, [init_repo] (look-up,
    readme, add, commit, branch, push), folder renaming -- and whenever a
    call was made, every call made before it had gone well: no step runs
    after a step that failed. *)
Theorem main_fail_fast (env : Env) (st : State) :
  exists evs : list Event,
    trace (snd (Script.main env st)) = (trace st ++ evs)%list /\
    (forall (i j : nat) (earlier later : Event),
        (i < j)%nat ->
        nth_error evs i = Some earlier ->
        nth_error evs j = Some later ->
        succeeded earlier = true) /\
    match fst (Script.argument_parser env st) with
    | Ok (folder_name, repo_name, repo_desc, repo_visibility) =>
        exists n : nat,
          commands evs = firstn n (pipeline folder_name repo_name repo_desc repo_visibility)
    | Raise _ => evs = []
    end.
Proof.
  destruct (main_runs_pipeline env st) as (evs & Htrace & Hfast & Hpipe).
  exists evs. split; [exact Htrace|]. split; [|exact Hpipe].
  intros i j earlier later Hij Hi Hj.
  destruct (nth_error_split evs i Hi) as (before & after & -> & Hlen).
  apply (Hfast before earlier after eq_refl).
  intros ->.
  assert (Hlt : (j < List.length (before ++ [earlier]))%nat)
    by (apply nth_error_Some; congruence).
  rewrite length_app in Hlt. cbn in Hlt. lia.
Qed.

(** With every answer favourable the whole pipeline runs. *)
Example two_sum_full_run :
  let r := Script.script (world two_sum_argv two_sum_args all_ok) initial in
  fst r = Ok tt /\
  commands (trace (snd r)) = OsSystem "clear" :: two_sum_calls.
Proof. vm_compute. split; reflexivity. Qed.

(** C5.  When [gh repo view] exits with status 1 inside [init_repo], the
    [CalledProcessError] is caught nowhere: it leaves [init_repo] and
    [main], and the process ends on it. *)
Theorem repo_view_failure_escapes :
  let r := Script.script (world two_sum_argv two_sum_args view_fails) initial in
  fst r = Raise (CalledProcessError 1 Script.get_repo_cmd (Some "") None) /\
  Script.exit_status (fst r) = 1%Z /\
  commands (trace (snd r)) = OsSystem "clear" :: firstn 4 two_sum_calls.
Proof. vm_compute. repeat split. Qed.

(** C7.  For [-f sandbox.two-sum -rd "two sum problem" -rv private] the
    resolver gives the name [python-challenge-two-sum], the description
    [Two sum problem] and the visibility [private].  [main] starts with the
    authentication check and, when that goes well, runs next exactly
    [gh repo create python-challenge-two-sum --private --description
    "Two sum problem" --clone --disable-wiki]; its calls are an initial part
    of the expected sequence, and the whole of it when every call goes
    well. *)
Theorem two_sum_scenario (os : string) (o : list Event -> Call -> Outcome) (st : State) :
  let env := {| os_name := os; sys_argv := two_sum_argv;
                parsed_args := two_sum_args; oracle := o |} in
  let calls := commands (trace (snd (Script.main env initial))) in
  Script.argument_parser env st =
    (Ok ("sandbox.two-sum", "python-challenge-two-sum", "Two sum problem", "private"), st) /\
  (exists n : nat, (1 <= n)%nat /\ calls = firstn n two_sum_calls) /\
  (forall out err,
      o [] (SubprocessRun ["gh"; "auth"; "status"] None None) = Exited 0 out err ->
      nth_error calls 1 =
        Some (SubprocessRun ["gh"; "repo"; "create"; "python-challenge-two-sum"; "--private";
                             "--description"; "Two sum problem"; "--clone"; "--disable-wiki"]
                            None None)) /\
  ((forall h c, exists out err, o h c = Exited 0 out err) -> calls = two_sum_calls).
Proof.
  intros env calls. subst calls.
  assert (Hret : Script.argument_parser env initial =
                 (Ok ("sandbox.two-sum", "python-challenge-two-sum",
                      "Two sum problem", "private"), initial)) by reflexivity.
  split; [reflexivity|].
  split; [|split];
    unfold Script.main, bind at 1; rewrite Hret;
    run_script; cbn [initial app].
  - repeat next_answer.
    all: unfold commands; cbn [map fst];
      match goal with
      | |- exists n, _ /\ ?l = _ => exists (List.length l); split; [cbn; lia|reflexivity]
      end.
  - intros out err Hauth.
    rewrite run_command_spec. cbn [fst snd trace stdout initial app].
    change (oracle env) with o. rewrite Hauth.
    cbn [run_command_result run_command_output truthy Z.eqb]. cbv beta iota.
    cbn [fst snd trace stdout].
    repeat next_answer.
    all: reflexivity.
  - intros Hall.
    repeat (first
              [ rewrite run_command_spec
              | match goal with
                | |- context [o ?h ?k] =>
                    let E := fresh "E" in
                    destruct (Hall h k) as (? & ? & E); rewrite E; clear E
                end ];
            cbn [run_command_result run_command_output truthy Z.eqb oracle env];
            cbv beta iota; cbn [fst snd trace stdout]).
    reflexivity.
Qed.

(** ** The script from its first line *)

(** The script clears the screen, then runs [main]. *)
Lemma script_after_cls (env : Env) (st : State) :
  Script.script env st =
    Script.main env
      {| trace := (trace st ++ [(OsSystem (clear_command env),
                                 oracle env (trace st) (OsSystem (clear_command env)))])%list;
         stdout := stdout st |}.
Proof. reflexivity. Qed.

(** An exception of [argument_parser] ends [main]. *)
Lemma main_stops_with_parser (env : Env) (st st' : State) (e : exn) :
  Script.argument_parser env st = (Raise e, st') ->
  Script.main env st = (Raise e, st').
Proof. intros H. unfold Script.main, bind. now rewrite H. Qed.

Lemma no_second_piece_of_folder (folder : option string) :
  match folder with
  | Some f => free_of "." f
  | None => True
  end ->
  nth_error (Py.split "." (match folder with
                           | Some f => Py.lower f
                           | None => ""
                           end)) 1 = None.
Proof.
  destruct folder as [f|]; intros H; [|reflexivity].
  rewrite split_free by (apply lower_free_of_dot; exact H). reflexivity.
Qed.

(** C8.  With arguments on the command line and a folder name without a
    dot (or no folder name at all), [argument_parser] raises [IndexError];
    nobody catches it, so the process ends with status 1 before any [gh],
    [git] or [mv] command is run: all the script has done by then is to
    clear the screen. *)
Theorem folder_without_dot_crashes (env : Env) :
  List.length (sys_argv env) <> 1%nat ->
  match arg_folder_name (parsed_args env) with
  | Some f => free_of "." f
  | None => True
  end ->
  exists message : string,
    (forall st, Script.argument_parser env st = (Raise (IndexError message), st)) /\
    fst (Script.script env initial) = Raise (IndexError message) /\
    Script.exit_status (fst (Script.script env initial)) = 1%Z /\
    commands (trace (snd (Script.script env initial))) = [OsSystem (clear_command env)] /\
    existsb is_subprocess (commands (trace (snd (Script.script env initial)))) = false.
Proof.
  intros Hargv Hfolder.
  apply no_second_piece_of_folder in Hfolder.
  assert (Hparser : exists message, forall st,
             Script.argument_parser env st = (Raise (IndexError message), st)).
  { destruct (arg_repo_desc (parsed_args env)) as [[|c rest]|] eqn:Hdesc.
    - eexists. intros st. now apply argument_parser_empty_desc.
    - eexists. intros st. apply argument_parser_no_second_piece; congruence.
    - eexists. intros st. apply argument_parser_no_second_piece; congruence. }
  destruct Hparser as (message & Hparser).
  exists message. split; [exact Hparser|].
  rewrite script_after_cls.
  erewrite main_stops_with_parser by apply Hparser.
  repeat split.
Qed.

Lemma folder_without_dot_crashes_witness :
  exists message : string,
    fst (Script.script
           (world [script_name; "-f"; "sandbox"]
                  {| arg_folder_name := Some "sandbox";
                     arg_repo_desc := None; arg_repo_visibility := None |} all_ok)
           initial) = Raise (IndexError message).
Proof.
  destruct (@folder_without_dot_crashes
              (world [script_name; "-f"; "sandbox"]
                     {| arg_folder_name := Some "sandbox";
                        arg_repo_desc := None; arg_repo_visibility := None |} all_ok))
    as (message & _ & H & _);
    [ cbn; lia | reflexivity | ].
  exists message. exact H.
Defined.

(** C9.  Without arguments the script prints the help and exits with
    status 1, and no [gh], [git] or [mv] command is run: all the script has
    done by then is to clear the screen. *)
Theorem no_arguments_usage (env : Env) :
  List.length (sys_argv env) = 1%nat ->
  let r := Script.script env initial in
  fst r = Raise (SystemExit 1) /\
  Script.exit_status (fst r) = 1%Z /\
  stdout (snd r) = [{| fragments := [HelpText]; ending := "" |}] /\
  commands (trace (snd r)) = [OsSystem (clear_command env)] /\
  existsb is_subprocess (commands (trace (snd r))) = false.
Proof.
  intros Hargv r. subst r.
  rewrite script_after_cls.
  erewrite main_stops_with_parser by (apply argument_parser_usage; exact Hargv).
  repeat split.
Qed.

Lemma no_arguments_usage_witness :
  Script.exit_status (fst (Script.script (world [script_name] no_args all_ok) initial)) = 1%Z.
Proof.
  apply (@no_arguments_usage (world [script_name] no_args all_ok)).
  reflexivity.
Defined.

(** ** Branch protection *)

Lemma protection_settings_dumps :
  Json.dumps Script.protection_settings = protection_payload.
Proof. reflexivity. Qed.

(** [set_branch_protection] asks for the name of the repository and then
    makes at most one more call, the [PUT], with the settings on its
    standard input; no exception leaves it. *)
Lemma set_branch_protection_calls (repo_name : string) (env : Env) (st : State) :
  exists (evs : list Event) (st' : State),
    Script.set_branch_protection repo_name env st = (Ok PyNone, st') /\
    trace st' = (trace st ++ evs)%list /\
    forall cmd cwd input o,
      In (SubprocessRun cmd cwd input, o) evs ->
      input = Some protection_payload /\ cwd = Some ("./" ++ repo_name).
Proof.
  unfold Script.set_branch_protection. run_monad.
  destruct (oracle env (trace st) _) as [code out err|code|message];
    [destruct (code =? 0)%Z| |]; cbv beta iota; cbn [fst snd trace stdout].
  - destruct (nth_error (Py.split "/" (Py.strip out)) 0) as [owner|];
      cbv beta iota; cbn [fst snd trace stdout].
    + destruct (nth_error (Py.split "/" (Py.strip out)) 1) as [repo|];
        cbv beta iota; cbn [fst snd trace stdout].
      * destruct (oracle env _ _) as [code' out' err'|code'|message'];
          [destruct (code' =? 0)%Z| |]; cbv beta iota; cbn [fst snd trace stdout];
          rewrite <- ?app_assoc; cbn [app];
          eexists _, _; (split; [reflexivity|]); (split; [reflexivity|]);
          intros cmd cwd input o [H|[H|[]]]; inversion H; subst;
          split; reflexivity.
      * eexists [_], _; (split; [reflexivity|]); (split; [reflexivity|]).
        intros cmd cwd input o [H|[]]; inversion H.
    + eexists [_], _; (split; [reflexivity|]); (split; [reflexivity|]).
      intros cmd cwd input o [H|[]]; inversion H.
  - eexists [_], _; (split; [reflexivity|]); (split; [reflexivity|]).
    intros cmd cwd input o [H|[]]; inversion H.
  - eexists [_], _; (split; [reflexivity|]); (split; [reflexivity|]).
    intros cmd cwd input o [H|[]]; inversion H.
  - eexists [_], _; (split; [reflexivity|]); (split; [reflexivity|]).
    intros cmd cwd input o [H|[]]; inversion H.
Qed.

(** When [gh repo view] answers [octo/demo], the [PUT] goes to that
    repository with the settings as its input. *)
Example set_branch_protection_run :
  commands (trace (snd (Script.set_branch_protection "demo"
                          (world two_sum_argv two_sum_args
                                 (fun _ _ => Exited 0 ("octo/demo" ++ nl) ""))
                          initial))) =
    [ CheckOutput Script.get_repo_cmd (Some "./demo");
      SubprocessRun ["gh"; "api"; "repos/octo/demo/branches/main/protection";
                     "--method"; "PUT"; "--input"; "-"]
                    (Some "./demo") (Some protection_payload) ].
Proof. vm_compute. reflexivity. Qed.

(** C10, as the code has it.  The settings [set_branch_protection] builds
    ask for no status checks, one approving review, no force pushes and no
    deletions, and they are not enforced on administrators
    ([enforce_admins] is [false]); their JSON text is the payload, and
    every [subprocess.run] of [set_branch_protection] gets it as input. *)
Theorem branch_protection_settings :
  no_required_status_checks Script.protection_settings /\
  required_approving_reviews Script.protection_settings 1 /\
  force_pushes_allowed Script.protection_settings false /\
  deletions_allowed Script.protection_settings false /\
  enforced_on_admins Script.protection_settings false /\
  Json.dumps Script.protection_settings = protection_payload /\
  forall (repo_name : string) (env : Env) (st : State),
    exists evs : list Event,
      trace (snd (Script.set_branch_protection repo_name env st)) = (trace st ++ evs)%list /\
      forall cmd cwd input o,
        In (SubprocessRun cmd cwd input, o) evs ->
        input = Some (Json.dumps Script.protection_settings).
Proof.
  repeat match goal with |- _ /\ _ => split end; try reflexivity.
  - eexists. split; reflexivity.
  - intros repo_name env st.
    destruct (set_branch_protection_calls repo_name env st) as (evs & st' & Hrun & Htr & Hin).
    exists evs. rewrite Hrun. split; [exact Htr|].
    intros cmd cwd input o H. rewrite protection_settings_dumps.
    exact (proj1 (Hin cmd cwd input o H)).
Qed.

(** C10 as it is stated fails here: the settings do not put administrators
    under the protection, [enforce_admins] is not [true]. *)
Lemma branch_protection_admins_exempt :
  ~ (no_required_status_checks Script.protection_settings /\
     required_approving_reviews Script.protection_settings 1 /\
     force_pushes_allowed Script.protection_settings false /\
     deletions_allowed Script.protection_settings false /\
     enforced_on_admins Script.protection_settings true).
Proof.
  intros (_ & _ & _ & _ & H). unfold enforced_on_admins in H. cbn in H. discriminate H.
Qed.


(** * Further properties of the code *)

(** ** What the argument resolver returns, and when *)

Lemma split_pieces_free (sep : ascii) (s piece : string) :
  In piece (Py.split sep s) -> free_of sep piece.
Proof.
  unfold free_of. revert piece. induction s as [|c s IH]; cbn; intros piece Hin.
  - destruct Hin as [<-|[]]. reflexivity.
  - destruct (Ascii.eqb c sep) eqn:Hc.
    + destruct Hin as [<-|Hin]; [reflexivity|now apply IH].
    + pose proof (split_nonempty sep s) as Hne.
      destruct (Py.split sep s) as [|p ps]; [contradiction|].
      destruct Hin as [<-|Hin].
      * cbn. rewrite Hc. apply IH. now left.
      * apply IH. now right.
Qed.

(** Lower-casing does not change whether there is a second piece. *)
Lemma second_piece_lower (f : string) :
  (exists seg, nth_error (Py.split "." f) 1 = Some seg) <->
  (exists piece, nth_error (Py.split "." (Py.lower f)) 1 = Some piece).
Proof.
  split; intros (p & Hp).
  - destruct (nth_error (Py.split "." (Py.lower f)) 1) as [piece|] eqn:Hpiece; [eauto|].
    apply second_piece_iff in Hpiece. unfold free_of in Hpiece.
    rewrite lower_contains_dot in Hpiece.
    apply second_piece_iff in Hpiece. congruence.
  - destruct (nth_error (Py.split "." f) 1) as [seg|] eqn:Hseg; [eauto|].
    apply second_piece_iff, lower_free_of_dot, second_piece_iff in Hseg. congruence.
Qed.

(** X1.  When [argument_parser] returns, the visibility is ["public"] if
    [-rv] was not given, and the given value lower-cased otherwise; it is
    not checked against [public] and [private]. *)
Theorem visibility_default_and_case (env : Env) (st st' : State)
                                    (folder_name repo_name repo_desc repo_visibility : string) :
  Script.argument_parser env st =
    (Ok (folder_name, repo_name, repo_desc, repo_visibility), st') ->
  (arg_repo_visibility (parsed_args env) = None -> repo_visibility = "public") /\
  (forall v, arg_repo_visibility (parsed_args env) = Some v -> repo_visibility = Py.lower v).
Proof.
  intros Hret.
  apply argument_parser_ok_inv in Hret as (_ & _ & _ & _ & -> & _).
  unfold resolved_visibility.
  split; [intros ->|intros v ->]; reflexivity.
Qed.

Lemma visibility_default_and_case_witness :
  "internal" = Py.lower "Internal".
Proof.
  apply (proj2 (@visibility_default_and_case
                  (world [script_name; "-f"; "a.b"; "-rv"; "Internal"]
                         {| arg_folder_name := Some "a.b"; arg_repo_desc := None;
                            arg_repo_visibility := Some "Internal" |} all_ok)
                  initial initial "a.b" "python-challenge-b" "" "internal" eq_refl)
               "Internal" eq_refl).
Defined.

(** X2.  [argument_parser] returns exactly when something follows the
    script name on the command line, the description is not the empty
    string, and the folder name is given and has a second dot-delimited
    piece; and then it has printed nothing and started nothing. *)
Theorem argument_parser_returns_iff (env : Env) (st : State) :
  (exists result, Script.argument_parser env st = (Ok result, st)) <->
  (List.length (sys_argv env) <> 1%nat /\
   arg_repo_desc (parsed_args env) <> Some "" /\
   exists f seg,
     arg_folder_name (parsed_args env) = Some f /\
     nth_error (Py.split "." f) 1 = Some seg).
Proof.
  split.
  - intros ([[[folder_name repo_name] repo_desc] repo_visibility] & Hret).
    apply argument_parser_ok_inv in Hret
      as (_ & Hargv & Hdesc & _ & _ & f & piece & Hf & Hpiece & _).
    repeat split; try assumption.
    destruct (proj2 (second_piece_lower f)) as (seg & Hseg); [eauto|].
    now exists f, seg.
  - intros (Hargv & Hdesc & f & seg & Hf & Hseg).
    destruct (proj1 (second_piece_lower f)) as (piece & Hpiece); [eauto|].
    eexists. now apply (argument_parser_returns env st (f := f) (piece := piece)).
Qed.

(** X3.  Only the second dot-delimited piece of the folder name counts:
    for an ASCII folder name [x.y.z], with [x] and [y] free of dots and [z]
    anything, the repository name is ["python-challenge-" + y.lower()] and
    [z] is dropped. *)
Theorem later_pieces_ignored (env : Env) (st : State) (x y z : string) :
  List.length (sys_argv env) <> 1%nat ->
  arg_folder_name (parsed_args env) = Some (x ++ "." ++ y ++ "." ++ z) ->
  Py.is_ascii (x ++ "." ++ y ++ "." ++ z) = true ->
  free_of "." x -> free_of "." y ->
  arg_repo_desc (parsed_args env) <> Some "" ->
  exists repo_desc repo_visibility,
    Script.argument_parser env st =
      (Ok (Py.lower (x ++ "." ++ y ++ "." ++ z), "python-challenge-" ++ Py.lower y,
           repo_desc, repo_visibility), st).
Proof.
  intros Hargv Hf Hascii Hx Hy Hdesc.
  eexists _, _.
  apply (argument_parser_returns_ascii env st
           (f := x ++ "." ++ y ++ "." ++ z) (seg := y));
    try assumption.
  cbn [String.append]. rewrite split_at_first by assumption. cbn [nth_error].
  now rewrite split_at_first by assumption.
Qed.

Lemma later_pieces_ignored_witness :
  exists repo_desc repo_visibility,
    Script.argument_parser
      (world [script_name; "-f"; "Katas.Two-Sum.v2.final"]
             {| arg_folder_name := Some "Katas.Two-Sum.v2.final";
                arg_repo_desc := None; arg_repo_visibility := None |} all_ok)
      initial =
      (Ok ("katas.two-sum.v2.final", "python-challenge-two-sum",
           repo_desc, repo_visibility), initial).
Proof.
  apply (@later_pieces_ignored
           (world [script_name; "-f"; "Katas.Two-Sum.v2.final"]
                  {| arg_folder_name := Some "Katas.Two-Sum.v2.final";
                     arg_repo_desc := None; arg_repo_visibility := None |} all_ok)
           initial "Katas" "Two-Sum" "v2.final");
    [ cbn; lia | reflexivity | reflexivity | reflexivity | reflexivity | discriminate ].
Defined.

(** X4.  A description that starts with an ASCII character comes back with
    that character upper-cased and every other character as it was given
    (the rest is not lower-cased, and no later word is capitalised). *)
Theorem nonempty_description_capitalized (env : Env) (st st' : State) (c : ascii)
    (rest folder_name repo_name repo_desc repo_visibility : string) :
  arg_repo_desc (parsed_args env) = Some (String c rest) ->
  (nat_of_ascii c < 128)%nat ->
  Script.argument_parser env st =
    (Ok (folder_name, repo_name, repo_desc, repo_visibility), st') ->
  repo_desc = String (Py.upper_char c) rest.
Proof.
  intros Hd _ Hret.
  apply argument_parser_ok_inv in Hret as (_ & _ & _ & -> & _).
  unfold resolved_desc. now rewrite Hd.
Qed.

Lemma nonempty_description_capitalized_witness :
  "Two SUM problem" = String (Py.upper_char "t") "wo SUM problem".
Proof.
  apply (@nonempty_description_capitalized
           (world [script_name; "-f"; "a.b"; "-rd"; "two SUM problem"]
                  {| arg_folder_name := Some "a.b";
                     arg_repo_desc := Some "two SUM problem";
                     arg_repo_visibility := None |} all_ok)
           initial initial "t" "wo SUM problem" "a.b" "python-challenge-b"
           "Two SUM problem" "public" eq_refl ltac:(cbn; lia) eq_refl).
Defined.

(** X5.  Every repository name [argument_parser] returns is the prefix
    [python-challenge-] followed by a piece that holds no dot, and it is in
    lower case: lower-casing it again changes nothing. *)
Theorem repo_name_shape (env : Env) (st st' : State)
                        (folder_name repo_name repo_desc repo_visibility : string) :
  Script.argument_parser env st =
    (Ok (folder_name, repo_name, repo_desc, repo_visibility), st') ->
  (exists piece, repo_name = "python-challenge-" ++ piece /\ free_of "." piece) /\
  Py.lower repo_name = repo_name.
Proof.
  intros Hret.
  apply argument_parser_ok_inv in Hret
    as (_ & _ & _ & _ & _ & f & piece & _ & Hpiece & _ & ->).
  split.
  - exists (Py.lower piece). split; [reflexivity|].
    apply lower_free_of_dot.
    apply (split_pieces_free "." (Py.lower f)). eapply nth_error_In, Hpiece.
  - unfold Script.add_prefix, Py.lower at 1.
    apply lower_from_fixed.
    rewrite has_capital_after_prefix. apply lower_from_no_capital.
Qed.

Lemma repo_name_shape_witness :
  Py.lower "python-challenge-two-sum" = "python-challenge-two-sum".
Proof.
  apply (proj2 (@repo_name_shape
                  (world two_sum_argv two_sum_args all_ok) initial initial
                  "sandbox.two-sum" "python-challenge-two-sum" "Two sum problem" "private"
                  eq_refl)).
Defined.

(** ** The command runner and the steps built on it *)

(** X6.  No exception of the command leaves [run_command]: whatever the
    operating system answers, [run_command] returns, having made exactly
    one call, the command itself with nothing on its standard input. *)
Theorem run_command_contains_failures (env : Env) (st : State)
                                      (cmd : list string) (pCWD : option string) :
  exists (v : pyval) (st' : State) (o : Outcome),
    Script.run_command cmd pCWD env st = (Ok v, st') /\
    trace st' = (trace st ++ [(SubprocessRun cmd pCWD None, o)])%list.
Proof.
  rewrite run_command_spec. eexists _, _, _. split; reflexivity.
Qed.

(** X7.  [run_command] prints nothing exactly when the command exits with
    status 0 and what it wrote is text; in every other case -- another exit
    status, output that cannot be decoded, a refused launch -- it leaves a
    diagnostic on the output. *)
Theorem run_command_silent_iff_success (env : Env) (st : State)
                                       (cmd : list string) (pCWD : option string) :
  stdout (snd (Script.run_command cmd pCWD env st)) = stdout st <->
  exists out err, oracle env (trace st) (SubprocessRun cmd pCWD None) = Exited 0 out err.
Proof.
  rewrite run_command_spec. cbn [snd stdout].
  destruct (oracle env (trace st) (SubprocessRun cmd pCWD None))
    as [code out err|code|message]; cbn [run_command_output].
  - destruct (Z.eqb_spec code 0) as [->|Hne].
    + rewrite app_nil_r. split; eauto.
    + split.
      * intros H. rewrite <- (app_nil_r (stdout st)) in H at 2.
        apply app_inv_head in H. discriminate H.
      * intros (out' & err' & H). inversion H. contradiction.
  - split.
    + intros H. rewrite <- (app_nil_r (stdout st)) in H at 2.
      apply app_inv_head in H. discriminate H.
    + intros (out' & err' & H). discriminate H.
  - split.
    + intros H. rewrite <- (app_nil_r (stdout st)) in H at 2.
      apply app_inv_head in H. discriminate H.
    + intros (out' & err' & H). discriminate H.
Qed.

(** X8.  [create_gh_repo] and [rename_folder] turn the answer of
    [run_command] into a proper boolean: [True] when the command went well
    (exit status 0, output read as text) and [False] in every other case, a
    refused launch and output that cannot be decoded included;
    [is_logged_to_gh] hands the answer of [run_command] on as it is, [None]
    included. *)
Theorem steps_return_booleans (env : Env) (st : State) :
  (forall repo_name repo_desc repo_visibility,
      let c := SubprocessRun
                 ["gh"; "repo"; "create"; repo_name; "--" ++ repo_visibility;
                  "--description"; repo_desc; "--clone"; "--disable-wiki"] None None in
      fst (Script.create_gh_repo repo_name repo_desc repo_visibility env st) =
        Ok (if succeeded (c, oracle env (trace st) c) then PyTrue else PyFalse)) /\
  (forall repo_name folder_name,
      let c := SubprocessRun ["mv"; repo_name; folder_name] None None in
      fst (Script.rename_folder repo_name folder_name env st) =
        Ok (if succeeded (c, oracle env (trace st) c) then PyTrue else PyFalse)) /\
  (let c := SubprocessRun ["gh"; "auth"; "status"] None None in
   fst (Script.is_logged_to_gh env st) = Ok (run_command_result (oracle env (trace st) c))).
Proof.
  repeat split; intros;
    unfold Script.create_gh_repo, Script.rename_folder, Script.is_logged_to_gh;
    run_monad; rewrite run_command_spec; cbn [fst snd trace stdout]; try reflexivity;
    subst c;
    match goal with
    | |- context [oracle ?e ?h ?k] =>
        destruct (oracle e h k) as [code out err|code|message]
    end;
    cbn [run_command_result succeeded]; try reflexivity;
    destruct (code =? 0)%Z; reflexivity.
Qed.

(** X9.  [configure_basic_repo_settings] runs [gh repo edit] inside the
    clone and returns [True], after printing its success line, exactly when
    the command went well (exit status 0, output read as text); otherwise
    it returns [False].  Its two [except] branches never run: it never
    returns [None], never raises, and never prints its own failure line. *)
Theorem configure_settings_outcome (repo_name : string) (env : Env) (st : State) :
  let c := SubprocessRun ["gh"; "repo"; "edit"; "--enable-projects=false";
                          "--delete-branch-on-merge"] (Some ("./" ++ repo_name)) None in
  let o := oracle env (trace st) c in
  exists lines : list Line,
    Script.configure_basic_repo_settings repo_name env st =
      (Ok (if succeeded (c, o) then PyTrue else PyFalse),
       {| trace := (trace st ++ [(c, o)])%list; stdout := (stdout st ++ lines)%list |}) /\
    printed "✅ Repository updated successfully" lines = succeeded (c, o) /\
    printed "❌ Failed to update repository settings." lines = false.
Proof.
  intros c o. subst o c.
  unfold Script.configure_basic_repo_settings. run_monad.
  rewrite run_command_spec. cbn [fst snd trace stdout].
  destruct (oracle env (trace st) _) as [[|p|p] out err|code|message];
    cbn [run_command_result run_command_output truthy Z.eqb]; cbv beta iota;
    cbn [fst snd trace stdout]; rewrite <- ?app_assoc; cbn [app];
    eexists; (split; [reflexivity|]); split; reflexivity.
Qed.

(** What [init_repo] does: an initial part of its six calls; the exception
    of the look-up or of the file, if one of them fails; and otherwise
    [True] when all six calls were made and went well, [False] if not. *)
Lemma init_repo_report (repo_name repo_desc : string) (env : Env) (st : State) :
  exists (evs : list Event) (st' : State),
    snd (Script.init_repo repo_name repo_desc env st) = st' /\
    trace st' = (trace st ++ evs)%list /\
    (exists n : nat, commands evs = firstn n (init_calls repo_name repo_desc)) /\
    fst (Script.init_repo repo_name repo_desc env st) =
      match escapes_last evs with
      | Some e => Raise e
      | None => Ok (if (List.length evs =? 6)%nat && forallb succeeded evs
                    then PyTrue else PyFalse)
      end.
Proof.
  unfold Script.init_repo. run_monad.
  repeat
    (first
       [ match goal with
         | |- context [oracle ?e ?h ?k] =>
             let code := fresh "code" in
             destruct (oracle e h k) as [code ? ?|?|?];
             cbn [run_command_result run_command_output];
             [ try match goal with
                   | |- context [(code =? 0)%Z] => destruct code as [|?|?]
                   end | | ]
         end
       | rewrite run_command_spec ];
     cbn [truthy Z.eqb]; cbv beta iota; cbn [fst snd trace stdout]).
  all: rewrite <- ?app_assoc; cbn [app];
    eexists _, _; (split; [reflexivity|]); (split; [reflexivity|]);
    split; [ match goal with
             | |- exists n, commands ?l = _ => exists (List.length l); reflexivity
             end
           | reflexivity ].
Qed.

(** X10.  [init_repo] returns [True] only when all six of its calls were
    made and went well -- the look-up, the line added to [README.md], and
    [git add], [commit], [branch -M main] and [push], each with exit status
    0 and output read as text -- and [False] when a [git] command does not
    go well; it raises the error of the look-up or of the file when one of
    those two fails, and it never returns [None]. *)
Theorem init_repo_outcome (repo_name repo_desc : string) (env : Env) (st : State) :
  exists evs : list Event,
    trace (snd (Script.init_repo repo_name repo_desc env st)) = (trace st ++ evs)%list /\
    (exists n : nat, commands evs = firstn n (init_calls repo_name repo_desc)) /\
    (fst (Script.init_repo repo_name repo_desc env st) = Ok PyTrue <->
       commands evs = init_calls repo_name repo_desc /\ forallb succeeded evs = true) /\
    fst (Script.init_repo repo_name repo_desc env st) <> Ok PyNone /\
    (forall e, fst (Script.init_repo repo_name repo_desc env st) = Raise e <->
               escapes_last evs = Some e).
Proof.
  destruct (init_repo_report repo_name repo_desc env st)
    as (evs & st' & Hst & Htr & (n & Hn) & Hres).
  exists evs. rewrite Hst, Hres. split; [exact Htr|]. split; [now exists n|].
  assert (Hlen : List.length evs = List.length (commands evs))
    by (unfold commands; now rewrite length_map).
  split; [split|split].
  - destruct (escapes_last evs); [discriminate|].
    destruct ((List.length evs =? 6)%nat && forallb succeeded evs) eqn:Hb; [|discriminate].
    intros _. apply andb_prop in Hb as [Hsix Hok]. apply Nat.eqb_eq in Hsix.
    split; [|exact Hok].
    rewrite Hn. apply firstn_all2.
    rewrite Hsix in Hlen. rewrite Hn, length_firstn in Hlen.
    cbn [init_calls List.length] in *. lia.
  - intros [Hall Hok]. rewrite Hall in Hlen. cbn in Hlen.
    assert (Hnone : escapes_last evs = None).
    { unfold escapes_last. clear Hres Htr Hst Hn.
      destruct evs as [|e1 [|e2 [|e3 [|e4 [|e5 [|[c6 o6] [|e7 evs]]]]]]];
        try discriminate Hlen.
      cbn in Hall. injection Hall as _ _ _ _ _ Hc6. subst c6. reflexivity. }
    rewrite Hnone, Hlen, Hok. reflexivity.
  - destruct (escapes_last evs); [discriminate|].
    now destruct (_ && _).
  - intros e. split.
    + destruct (escapes_last evs); [now intros [= ->]|].
      destruct (_ && _); discriminate.
    + now intros ->.
Qed.

(** ** What [main] reports *)

(** One answer of the world at a time; an exit status is split into 0 and
    the others where the script looks at it. *)
Ltac next_status :=
  first
    [ match goal with
      | |- context [oracle ?e ?h ?k] =>
          let code := fresh "code" in
          destruct (oracle e h k) as [code ? ?|?|?];
          cbn [run_command_result run_command_output];
          [ try match goal with
                | |- context [(code =? 0)%Z] => destruct code as [|?|?]
                end | | ]
      end
    | rewrite run_command_spec ];
  cbn [truthy Z.eqb]; cbv beta iota; cbn [fst snd trace stdout].

(** Once [argument_parser] has returned: the calls [main] makes, the lines
    it prints, and how it ends. *)
Lemma main_report (env : Env) (st : State)
                  (folder_name repo_name repo_desc repo_visibility : string) :
  Script.argument_parser env st =
    (Ok (folder_name, repo_name, repo_desc, repo_visibility), st) ->
  exists (evs : list Event) (lines : list Line) (res : Result unit),
    Script.main env st =
      (res, {| trace := (trace st ++ evs)%list; stdout := (stdout st ++ lines)%list |}) /\
    res = match escapes_last evs with
          | Some e => Raise e
          | None => Ok tt
          end /\
    (exists n : nat,
        commands evs = firstn n (pipeline folder_name repo_name repo_desc repo_visibility)) /\
    printed "✅ Done" lines = (List.length evs =? 10)%nat && forallb succeeded evs /\
    printed "❌ Something went wrong" lines =
      match evs with
      | [e1; e2] => succeeded e1 && negb (succeeded e2)
      | _ => false
      end /\
    printed "❌ You are NOT logged into GitHub CLI. Log via gh first and try again" lines =
      match evs with
      | [e1] => negb (succeeded e1)
      | _ => false
      end.
Proof.
  intros Hret.
  unfold Script.main at 1, bind at 1. rewrite Hret.
  run_script.
  repeat next_status.
  all: rewrite <- ?app_assoc; cbn [app];
    eexists _, _, _; (split; [reflexivity|]); (split; [reflexivity|]);
    split; [ match goal with
             | |- exists n, commands ?l = _ => exists (List.length l); reflexivity
             end
           | repeat split; reflexivity ].
Qed.

Lemma firstn_whole {A : Type} (l : list A) (n : nat) :
  List.length (firstn n l) = List.length l -> firstn n l = l.
Proof.
  intros H. apply firstn_all2. rewrite length_firstn in H. lia.
Qed.

Lemma in_firstn_in {A : Type} (x : A) (n : nat) (l : list A) :
  In x (firstn n l) -> In x l.
Proof.
  revert l. induction n as [|n IH]; intros [|y l]; cbn; try contradiction.
  intros [->|H]; [now left|right; now apply IH].
Qed.

(** X11.  Once the arguments are resolved, [main] prints its last line,
    [Done], exactly when it has made all ten calls of the pipeline and each
    of them went well: exit status 0 with output read as text, and the line
    added to the file. *)
Theorem done_iff_whole_pipeline (env : Env) (st : State)
    (folder_name repo_name repo_desc repo_visibility : string) :
  Script.argument_parser env st =
    (Ok (folder_name, repo_name, repo_desc, repo_visibility), st) ->
  exists (evs : list Event) (lines : list Line),
    trace (snd (Script.main env st)) = (trace st ++ evs)%list /\
    stdout (snd (Script.main env st)) = (stdout st ++ lines)%list /\
    (printed "✅ Done" lines = true <->
       commands evs = pipeline folder_name repo_name repo_desc repo_visibility /\
       forallb succeeded evs = true).
Proof.
  intros Hret.
  destruct (main_report env Hret) as (evs & lines & res & Hmain & _ & (n & Hn) & Hdone & _).
  exists evs, lines. rewrite Hmain, Hdone. cbn [snd trace stdout].
  split; [reflexivity|]. split; [reflexivity|].
  assert (Hlen : List.length (commands evs) = List.length evs)
    by (unfold commands; apply length_map).
  split.
  - intros H. apply andb_prop in H as [Hten Hok]. apply Nat.eqb_eq in Hten.
    split; [|exact Hok].
    rewrite Hn. apply firstn_whole. rewrite <- Hn, Hlen, Hten. reflexivity.
  - intros [Hall Hok]. rewrite Hok, <- Hlen, Hall. reflexivity.
Qed.

Lemma done_iff_whole_pipeline_witness :
  exists (evs : list Event) (lines : list Line),
    trace (snd (Script.main (world two_sum_argv two_sum_args all_ok) initial)) =
      (trace initial ++ evs)%list /\
    stdout (snd (Script.main (world two_sum_argv two_sum_args all_ok) initial)) =
      (stdout initial ++ lines)%list /\
    (printed "✅ Done" lines = true <->
       commands evs = pipeline "sandbox.two-sum" "python-challenge-two-sum"
                               "Two sum problem" "private" /\
       forallb succeeded evs = true).
Proof.
  apply (@done_iff_whole_pipeline
           (world two_sum_argv two_sum_args all_ok) initial
           "sandbox.two-sum" "python-challenge-two-sum" "Two sum problem" "private").
  reflexivity.
Defined.

(** X12.  [main] prints [Something went wrong] exactly when the
    authentication check went well and the creation of the remote
    repository failed.  When a later step fails -- the settings, a step of
    [init_repo], the renaming -- [main] stops without a line of its own. *)
Theorem failure_line_only_for_creation (env : Env) (st : State)
    (folder_name repo_name repo_desc repo_visibility : string) :
  Script.argument_parser env st =
    (Ok (folder_name, repo_name, repo_desc, repo_visibility), st) ->
  exists (evs : list Event) (lines : list Line),
    trace (snd (Script.main env st)) = (trace st ++ evs)%list /\
    stdout (snd (Script.main env st)) = (stdout st ++ lines)%list /\
    (printed "❌ Something went wrong" lines = true <->
       exists o1 o2,
         evs = [ (SubprocessRun ["gh"; "auth"; "status"] None None, o1);
                 (SubprocessRun ["gh"; "repo"; "create"; repo_name; "--" ++ repo_visibility;
                                 "--description"; repo_desc; "--clone"; "--disable-wiki"]
                                None None, o2) ] /\
         succeeded (SubprocessRun ["gh"; "auth"; "status"] None None, o1) = true /\
         run_command_result o2 <> PyTrue).
Proof.
  intros Hret.
  destruct (main_report env Hret)
    as (evs & lines & res & Hmain & _ & (n & Hn) & _ & Hwrong & _).
  exists evs, lines. rewrite Hmain, Hwrong. cbn [snd trace stdout].
  split; [reflexivity|]. split; [reflexivity|].
  split.
  - destruct evs as [|[c1 o1] [|[c2 o2] [|e3 evs]]]; try discriminate.
    intros H. apply andb_prop in H as [H1 H2].
    destruct n as [|[|n]]; try discriminate Hn.
    cbn in Hn. injection Hn as -> -> _.
    exists o1, o2. repeat split; [exact H1|].
    destruct o2 as [code out err|code|message]; cbn in *; [|discriminate|discriminate].
    now destruct (code =? 0)%Z.
  - intros (o1 & o2 & -> & H1 & H2). rewrite H1.
    destruct o2 as [code out err|code|message]; cbn in *; [|reflexivity|reflexivity].
    now destruct (code =? 0)%Z.
Qed.

Lemma failure_line_only_for_creation_witness :
  exists (evs : list Event) (lines : list Line),
    trace (snd (Script.main (world two_sum_argv two_sum_args view_fails) initial)) =
      (trace initial ++ evs)%list /\
    stdout (snd (Script.main (world two_sum_argv two_sum_args view_fails) initial)) =
      (stdout initial ++ lines)%list /\
    (printed "❌ Something went wrong" lines = true <->
       exists o1 o2,
         evs = [ (SubprocessRun ["gh"; "auth"; "status"] None None, o1);
                 (SubprocessRun ["gh"; "repo"; "create"; "python-challenge-two-sum";
                                 "--" ++ "private"; "--description"; "Two sum problem";
                                 "--clone"; "--disable-wiki"] None None, o2) ] /\
         succeeded (SubprocessRun ["gh"; "auth"; "status"] None None, o1) = true /\
         run_command_result o2 <> PyTrue).
Proof.
  apply (@failure_line_only_for_creation
           (world two_sum_argv two_sum_args view_fails) initial
           "sandbox.two-sum" "python-challenge-two-sum" "Two sum problem" "private").
  reflexivity.
Defined.






(** Every call [main] makes is a call of the pipeline for the parameters
    [argument_parser] returned. *)
Lemma main_calls_in_pipeline (env : Env) (st : State) :
  exists evs : list Event,
    trace (snd (Script.main env st)) = (trace st ++ evs)%list /\
    forall c, In c (commands evs) ->
      exists folder_name repo_name repo_desc repo_visibility st',
        Script.argument_parser env st =
          (Ok (folder_name, repo_name, repo_desc, repo_visibility), st') /\
        In c (pipeline folder_name repo_name repo_desc repo_visibility).
Proof.
  destruct (main_runs_pipeline env st) as (evs & Htr & _ & Hpipe).
  exists evs. split; [exact Htr|].
  intros c Hc.
  destruct (Script.argument_parser env st)
    as [[[[[folder_name repo_name] repo_desc] repo_visibility]|e] st'] eqn:Hret;
    cbn [fst] in Hpipe.
  - destruct Hpipe as (n & Hn). rewrite Hn in Hc.
    exists folder_name, repo_name, repo_desc, repo_visibility, st'.
    split; [reflexivity|]. eapply in_firstn_in, Hc.
  - subst evs. contradiction.
Qed.

(** X15.  The [mv] at the end renames the clone to the folder name in lower
    case, not to the folder name as it was typed: for [-f F] the only [mv]
    [main] can run is [mv python-challenge-<piece> F.lower()], with [piece]
    the second dot-delimited piece of [F.lower()], lower-cased once more. *)
Theorem rename_target_is_lowercased (env : Env) (st : State) (F : string) :
  arg_folder_name (parsed_args env) = Some F ->
  exists evs : list Event,
    trace (snd (Script.main env st)) = (trace st ++ evs)%list /\
    forall c arguments,
      In c (commands evs) -> mv_arguments c = Some arguments ->
      exists piece,
        nth_error (Py.split "." (Py.lower F)) 1 = Some piece /\
        arguments = ["python-challenge-" ++ Py.lower piece; Py.lower F].
Proof.
  intros HF.
  destruct (main_calls_in_pipeline env st) as (evs & Htr & Hcalls).
  exists evs. split; [exact Htr|].
  intros c arguments Hc Hmv.
  destruct (Hcalls c Hc)
    as (folder_name & repo_name & repo_desc & repo_visibility & st' & Hret & Hin).
  apply argument_parser_ok_inv in Hret
    as (_ & _ & _ & _ & _ & f & piece & Hf & Hpiece & -> & ->).
  rewrite HF in Hf. injection Hf as <-.
  exists piece. split; [exact Hpiece|].
  cbn in Hin.
  repeat (destruct Hin as [<-|Hin]; [try discriminate Hmv|]); [|contradiction].
  cbn in Hmv. now injection Hmv as <-.
Qed.

Lemma rename_target_is_lowercased_witness :
  exists evs : list Event,
    trace (snd (Script.main
                  (world [script_name; "-f"; "SandBox.Two-Sum"]
                         {| arg_folder_name := Some "SandBox.Two-Sum";
                            arg_repo_desc := None; arg_repo_visibility := None |} all_ok)
                  initial)) = (trace initial ++ evs)%list /\
    forall c arguments,
      In c (commands evs) -> mv_arguments c = Some arguments ->
      exists piece,
        nth_error (Py.split "." "sandbox.two-sum") 1 = Some piece /\
        arguments = ["python-challenge-" ++ Py.lower piece; "sandbox.two-sum"].
Proof.
  apply (@rename_target_is_lowercased
           (world [script_name; "-f"; "SandBox.Two-Sum"]
                  {| arg_folder_name := Some "SandBox.Two-Sum";
                     arg_repo_desc := None; arg_repo_visibility := None |} all_ok)
           initial "SandBox.Two-Sum").
  reflexivity.
Defined.

(** X16.  [main] never applies the branch protection: whatever the
    arguments and the answers of the world, none of its calls is a [gh api]
    command, and none of its commands is given anything on standard input. *)
Theorem main_never_protects_branch (env : Env) (st : State) :
  exists evs : list Event,
    trace (snd (Script.main env st)) = (trace st ++ evs)%list /\
    forall c, In c (commands evs) ->
      is_gh_api c = false /\
      forall cmd cwd input, c = SubprocessRun cmd cwd input -> input = None.
Proof.
  destruct (main_calls_in_pipeline env st) as (evs & Htr & Hcalls).
  exists evs. split; [exact Htr|].
  intros c Hc.
  destruct (Hcalls c Hc)
    as (folder_name & repo_name & repo_desc & repo_visibility & st' & _ & Hin).
  cbn in Hin.
  repeat (destruct Hin as [<-|Hin];
          [split; [reflexivity|intros cmd cwd input [=]; congruence]|]).
  contradiction.
Qed.

(** X17.  The working directory is chosen call by call: every [git]
    command of [main] runs inside the clone, [./<repo_name>], and so do
    [gh repo edit] and [gh repo view]; only the authentication check, the
    creation and the final [mv] run in the directory of the process. *)
Theorem working_directories (env : Env) (st : State) :
  exists evs : list Event,
    trace (snd (Script.main env st)) = (trace st ++ evs)%list /\
    forall c, In c (commands evs) ->
      exists folder_name repo_name repo_desc repo_visibility st',
        Script.argument_parser env st =
          (Ok (folder_name, repo_name, repo_desc, repo_visibility), st') /\
        (is_git c = true -> call_cwd c = Some ("./" ++ repo_name)) /\
        (is_subprocess c = true ->
           call_cwd c = Some ("./" ++ repo_name) \/
           (call_cwd c = None /\
            (c = SubprocessRun ["gh"; "auth"; "status"] None None \/
             c = SubprocessRun ["gh"; "repo"; "create"; repo_name; "--" ++ repo_visibility;
                                "--description"; repo_desc; "--clone"; "--disable-wiki"]
                               None None \/
             c = SubprocessRun ["mv"; repo_name; folder_name] None None))).
Proof.
  destruct (main_calls_in_pipeline env st) as (evs & Htr & Hcalls).
  exists evs. split; [exact Htr|].
  intros c Hc.
  destruct (Hcalls c Hc)
    as (folder_name & repo_name & repo_desc & repo_visibility & st' & Hret & Hin).
  exists folder_name, repo_name, repo_desc, repo_visibility, st'.
  split; [exact Hret|].
  cbn in Hin.
  repeat (destruct Hin as [<-|Hin];
          [ split; [ cbn; first [reflexivity | discriminate] | ];
            cbn; first [ discriminate | intros _; tauto ] | ]).
  contradiction.
Qed.

(** ** Branch protection, call by call *)

(** X18.  [set_branch_protection] lets no exception out and returns
    [None] whatever happens.  It makes the look-up of the repository name
    and after it at most one call: the [PUT] on
    [repos/<owner>/<repo>/branches/main/protection], run inside the clone
    with the settings on standard input. *)
Theorem set_branch_protection_contained (repo_name : string) (env : Env) (st : State) :
  let view := CheckOutput Script.get_repo_cmd (Some ("./" ++ repo_name)) in
  exists (evs : list Event) (st' : State),
    Script.set_branch_protection repo_name env st = (Ok PyNone, st') /\
    trace st' = (trace st ++ evs)%list /\
    (commands evs = [view] \/
     exists owner repo,
       commands evs =
         [ view;
           SubprocessRun ["gh"; "api";
                          "repos/" ++ owner ++ "/" ++ repo ++ "/branches/main/protection";
                          "--method"; "PUT"; "--input"; "-"]
                         (Some ("./" ++ repo_name)) (Some protection_payload) ]).
Proof.
  intros view. subst view.
  unfold Script.set_branch_protection. run_monad.
  destruct (oracle env (trace st) _) as [code out err|code|message];
    [destruct (code =? 0)%Z| |]; cbv beta iota; cbn [fst snd trace stdout].
  - destruct (nth_error (Py.split "/" (Py.strip out)) 0) as [owner|];
      cbv beta iota; cbn [fst snd trace stdout].
    + destruct (nth_error (Py.split "/" (Py.strip out)) 1) as [repo|];
        cbv beta iota; cbn [fst snd trace stdout].
      * destruct (oracle env _ _) as [code' out' err'|code'|message'];
          [destruct (code' =? 0)%Z| |]; cbv beta iota; cbn [fst snd trace stdout];
          rewrite <- ?app_assoc; cbn [app];
          eexists _, _; (split; [reflexivity|]); (split; [reflexivity|]);
          right; exists owner, repo; reflexivity.
      * eexists [_], _; (split; [reflexivity|]); (split; [reflexivity|]); now left.
    + eexists [_], _; (split; [reflexivity|]); (split; [reflexivity|]); now left.
  - eexists [_], _; (split; [reflexivity|]); (split; [reflexivity|]); now left.
  - eexists [_], _; (split; [reflexivity|]); (split; [reflexivity|]); now left.
  - eexists [_], _; (split; [reflexivity|]); (split; [reflexivity|]); now left.
Qed.

(** X19.  When the look-up answers with a name that holds no [/],
    [set_branch_protection] sends nothing: [split("/")[1]] fails, the
    [IndexError] is caught by [except Exception], the line for an unexpected
    error is printed, and the look-up stays the only call. *)
Theorem set_branch_protection_without_owner (repo_name : string) (env : Env) (st : State)
                                            (out err : string) :
  let view := CheckOutput Script.get_repo_cmd (Some ("./" ++ repo_name)) in
  oracle env (trace st) view = Exited 0 out err ->
  free_of "/" (Py.strip out) ->
  Script.set_branch_protection repo_name env st =
    (Ok PyNone,
     {| trace := (trace st ++ [(view, Exited 0 out err)])%list;
        stdout :=
          (stdout st ++
           [ {| fragments := [Text ("▶️  Setting branch protection for " ++ repo_name)];
                ending := nl ++ nl |};
             {| fragments := [Text "❌ Unexpected error while updating branch protection:";
                              Text " ";
                              ExnStr (IndexError "list index out of range")];
                ending := nl |} ])%list |}).
Proof.
  intros view Hview Hfree. subst view.
  unfold Script.set_branch_protection. run_monad.
  rewrite Hview. cbn [Z.eqb]. cbv beta iota. cbn [fst snd trace stdout].
  rewrite split_free by exact Hfree. cbn [nth_error]. cbv beta iota.
  cbn [fst snd trace stdout]. rewrite <- ?app_assoc. reflexivity.
Qed.

Lemma set_branch_protection_without_owner_witness :
  fst (Script.set_branch_protection "demo"
         (world two_sum_argv two_sum_args (fun _ _ => Exited 0 ("demo" ++ nl) ""))
         initial) = Ok PyNone.
Proof.
  rewrite (@set_branch_protection_without_owner "demo"
             (world two_sum_argv two_sum_args (fun _ _ => Exited 0 ("demo" ++ nl) ""))
             initial ("demo" ++ nl) "");
    reflexivity.
Defined.

(** X20.  When the look-up answers [owner/repo], surrounded by any white
    space, the second call of [set_branch_protection] is the [PUT] on
    [repos/owner/repo/branches/main/protection] with the settings as its
    input. *)
Theorem set_branch_protection_endpoint (repo_name : string) (env : Env) (st : State)
                                       (out err owner repo : string) :
  let view := CheckOutput Script.get_repo_cmd (Some ("./" ++ repo_name)) in
  oracle env (trace st) view = Exited 0 out err ->
  Py.strip out = owner ++ "/" ++ repo ->
  free_of "/" owner -> free_of "/" repo ->
  commands (trace (snd (Script.set_branch_protection repo_name env st))) =
    app (commands (trace st))
        [ view;
          SubprocessRun ["gh"; "api";
                         "repos/" ++ owner ++ "/" ++ repo ++ "/branches/main/protection";
                         "--method"; "PUT"; "--input"; "-"]
                        (Some ("./" ++ repo_name)) (Some protection_payload) ].
Proof.
  intros view Hview Hstrip Howner Hrepo. subst view.
  unfold Script.set_branch_protection. run_monad.
  rewrite Hview. cbn [Z.eqb]. cbv beta iota. cbn [fst snd trace stdout].
  rewrite Hstrip. change (owner ++ "/" ++ repo) with (owner ++ String "/" repo).
  rewrite split_at_first by exact Howner. rewrite split_free by exact Hrepo.
  cbn [nth_error]. cbv beta iota. cbn [fst snd trace stdout].
  match goal with
  | |- context [oracle ?e ?h ?k] =>
      destruct (oracle e h k) as [code' out' err'|code'|message'];
      [destruct (code' =? 0)%Z| |]
  end;
    cbv beta iota; cbn [fst snd trace stdout];
    unfold commands; rewrite <- ?app_assoc, map_app; reflexivity.
Qed.

Lemma set_branch_protection_endpoint_witness :
  commands (trace (snd (Script.set_branch_protection "demo"
                          (world two_sum_argv two_sum_args
                                 (fun _ _ => Exited 0 ("  octo/demo" ++ nl) ""))
                          initial))) =
    app (commands (trace initial))
        [ CheckOutput Script.get_repo_cmd (Some ("./" ++ "demo"));
          SubprocessRun ["gh"; "api";
                         "repos/" ++ "octo" ++ "/" ++ "demo" ++ "/branches/main/protection";
                         "--method"; "PUT"; "--input"; "-"]
                        (Some ("./" ++ "demo")) (Some protection_payload) ].
Proof.
  apply (@set_branch_protection_endpoint "demo"
           (world two_sum_argv two_sum_args
                  (fun _ _ => Exited 0 ("  octo/demo" ++ nl) ""))
           initial ("  octo/demo" ++ nl) "" "octo" "demo");
    reflexivity.
Defined.
